(** * MarchMadnessV2: recency weighting, multi-year loading, model factory

    A shallow embedding of [src/data/feature_engineering.py],
    [src/data/data_loader.py] and [src/models/model_factory.py], followed by
    the properties the specification states about them.

    Conventions of the embedding:
    - a Python [int] is a [Z]; a Python [float] is a primitive [float]; the
      code stores weights and never computes with them;
    - a call that may raise returns a [result]: [Return v] or [Raise e];
    - a [Dict[int, V]] is an association list in insertion order, since the
      aggregation loop iterates [items()] in that order;
    - a [pandas.DataFrame] is its list of column labels and its list of rows,
      a row being a finite map from column label to cell value; a cell that
      pandas would show as missing (NaN) is an absent key;
    - the file system, [pandas.read_csv], [pickle] and the scikit-learn
      estimators are parameters: their outcome is supplied, not computed;
      [pandas.read_csv] may raise any exception, [FileNotFoundError]
      included. *)

From Stdlib Require Import ZArith PrimFloat Ascii String.
From stdpp Require Import gmap strings list sorting pretty.

Local Open Scope Z_scope.

(** ** Python runtime: exceptions, results, dictionaries, slices *)

Module Py.

(** The exception classes the three modules raise.  [LibraryError] stands
    for an exception raised inside a library call (pandas, scikit-learn,
    pickle, os) that is none of the classes the modules raise or catch
    themselves, for instance [pandas.errors.EmptyDataError]. *)
Inductive exn : Type :=
| ValueError (msg : string)
| RuntimeError (msg : string)
| TypeError (msg : string)
| KeyError (key : string)
| FileNotFoundError (msg : string)
| NotImplementedError (msg : string)
| AttributeError (msg : string)
| LibraryError (origin msg : string).

(** [str(e)] for the exceptions above. *)
Definition str_exn (e : exn) : string :=
  match e with
  | ValueError m | RuntimeError m | TypeError m
  | FileNotFoundError m | NotImplementedError m | AttributeError m => m
  | KeyError k => "'" +:+ k +:+ "'"
  | LibraryError _ m => m
  end.

Inductive result (A : Type) : Type :=
| Return (a : A)
| Raise (e : exn).
Global Arguments Return {A} a.
Global Arguments Raise {A} e.

(** Sequencing: the first exception raised ends the computation. *)
Global Instance result_bind : MBind result := λ A B k c,
  match c with
  | Return a => k a
  | Raise e => Raise e
  end.

Global Instance result_fmap : FMap result := λ A B f c,
  match c with
  | Return a => Return (f a)
  | Raise e => Raise e
  end.

Definition returns {A} (c : result A) : Prop := ∃ a, c = Return a.

(** The outcome of a library call: a value, or an exception of the library
    named by its class and message. *)
Inductive lib_result (A : Type) : Type :=
| Ok (a : A)
| Fails (origin msg : string).
Global Arguments Ok {A} a.
Global Arguments Fails {A} origin msg.

Definition lift {A} (r : lib_result A) : result A :=
  match r with
  | Ok a => Return a
  | Fails origin msg => Raise (LibraryError origin msg)
  end.

(** [repr] of a list of strings: ['a', 'b']. *)
Definition repr_str (s : string) : string := "'" +:+ s +:+ "'".

Fixpoint join (sep : string) (l : list string) : string :=
  match l with
  | [] => ""
  | [s] => s
  | s :: l' => s +:+ sep +:+ join sep l'
  end.

Definition repr_str_list (l : list string) : string :=
  "[" +:+ join ", " (repr_str <$> l) +:+ "]".

(** A dictionary literal with string keys, in source order. *)
Definition str_lookup {V} (k : string) (d : list (string * V)) : option V :=
  snd <$> find (λ kv, bool_decide (kv.1 = k)) d.

(** An insertion-ordered dictionary with integer keys. *)
Definition dict (V : Type) : Type := list (Z * V).

Definition keys {V} (d : dict V) : list Z := d.*1.
Definition values {V} (d : dict V) : list V := d.*2.
Definition items {V} (d : dict V) : list (Z * V) := d.

(** [bool(d)]: a dictionary is truthy when it has an entry. *)
Definition truthy {V} (d : dict V) : bool :=
  match d with
  | [] => false
  | _ :: _ => true
  end.

(** [d[k] = v]: an existing key keeps its position and takes the new value,
    a new key is appended. *)
Fixpoint setitem {V} (k : Z) (v : V) (d : dict V) : dict V :=
  match d with
  | [] => [(k, v)]
  | (k', v') :: d' =>
      if bool_decide (k' = k) then (k, v) :: d' else (k', v') :: setitem k v d'
  end.

(** [{k: v for k, v in d.items() if p(k)}]. *)
Definition comprehension {V} (p : Z → bool) (d : dict V) : dict V :=
  filter (λ kv, p kv.1 = true) d.

(** [sorted(l)] on integers. *)
Definition sorted (l : list Z) : list Z := merge_sort Z.le l.

(** [l[start:]] with Python's treatment of a negative or too large start. *)
Definition slice_from {A} (start : Z) (l : list A) : list A :=
  let n := Z.of_nat (length l) in
  let s := if bool_decide (start < 0) then Z.max 0 (start + n) else Z.min start n in
  drop (Z.to_nat s) l.

End Py.

Export Py.

(** ** The part of pandas the modules use *)

Module pd.

Inductive value : Type :=
| VInt (z : Z)
| VFloat (f : float)
| VStr (s : string).

Abbreviation Row := (gmap string value).

Record DataFrame : Type := mkDataFrame {
  columns : list string;
  rows : list Row
}.

(** A column taken out of a frame: its label and one cell per row. *)
Record Series : Type := mkSeries {
  name : string;
  cells : list (option value)
}.

(** [len(df)]. *)
Definition len (df : DataFrame) : nat := length (rows df).

(** [df.empty]: true when either axis has length zero. *)
Definition empty (df : DataFrame) : bool :=
  match columns df, rows df with
  | _ :: _, _ :: _ => false
  | _, _ => true
  end.

(** [df.copy()]: frames are values here, so the copy is the frame. *)
Definition copy (df : DataFrame) : DataFrame := df.

(** [df[label] = v] with a scalar [v]: every row takes [v] under [label];
    a new label goes last. *)
Definition setcol (label : string) (v : value) (df : DataFrame) : DataFrame :=
  {| columns := if bool_decide (label ∈ columns df) then columns df
                else columns df ++ [label];
     rows := insert label v <$> rows df |}.

(** The union of column labels in order of first appearance. *)
Definition union_labels (acc ls : list string) : list string :=
  fold_left (λ a c, if bool_decide (c ∈ a) then a else a ++ [c]) ls acc.

(** [pd.concat(dfs, ignore_index=True)] on a non-empty list of frames: rows
    in list order under a fresh positional index, columns united.  The cells
    are kept as the frames have them: frames carry no dtype here, and the
    common dtype pandas gives a united column (integers turned to floats
    when another frame lacks the column) is outside this embedding. *)
Definition concat (dfs : list DataFrame) : DataFrame :=
  {| columns := fold_left (λ a df, union_labels a (columns df)) dfs [];
     rows := dfs ≫= rows |}.

(** [df.drop(label, axis=1)]; on a label the frame does not have, pandas
    raises [KeyError] on the list of the labels not found. *)
Definition drop_column (label : string) (df : DataFrame) : result DataFrame :=
  if bool_decide (label ∈ columns df)
  then Return {| columns := filter (λ c, c ≠ label) (columns df);
                 rows := delete label <$> rows df |}
  else Raise (KeyError (repr_str_list [label] +:+ " not found in axis")).

(** [df[label]]. *)
Definition getcol (label : string) (df : DataFrame) : result Series :=
  if bool_decide (label ∈ columns df)
  then Return {| name := label; cells := (λ r : Row, r !! label) <$> rows df |}
  else Raise (KeyError label).

End pd.

(** ** src/data/feature_engineering.py *)

Module feature_engineering.

Import pd.

(** The years to emphasise, from the ascending list of years:
    [years[-emphasis_years:] if len(years) >= emphasis_years else years]. *)
Definition recent_years (years : list Z) (emphasis_years : Z) : list Z :=
  if bool_decide (emphasis_years ≤ Z.of_nat (length years))
  then slice_from (- emphasis_years) years
  else years.

(** One iteration of the loop over [data_by_year.items()]. *)
Definition weigh_year (recent : list Z) (base_weight emphasis_weight : float)
    (weighted_dfs : list DataFrame) (item : Z * DataFrame) : list DataFrame :=
  let '(year, df) := item in
  if empty df then weighted_dfs
  else
    let year_df := copy df in
    let year_df := setcol "year" (VInt year) year_df in
    let weight := if bool_decide (year ∈ recent) then emphasis_weight else base_weight in
    let year_df := setcol "weight" (VFloat weight) year_df in
    weighted_dfs ++ [year_df].

Definition weight_by_recency (data_by_year : dict DataFrame) (emphasis_years : Z)
    (base_weight emphasis_weight : float) : result DataFrame :=
  if negb (truthy data_by_year) then Raise (ValueError "No data provided")
  else
    let years := sorted (keys data_by_year) in
    let recent := recent_years years emphasis_years in
    let weighted_dfs :=
      fold_left (weigh_year recent base_weight emphasis_weight) (items data_by_year) [] in
    match weighted_dfs with
    | [] => Raise (ValueError "No valid data frames to combine")
    | _ :: _ => Return (concat weighted_dfs)
    end.

(** The defaults of the signature: [emphasis_years=2], [base_weight=1.0],
    [emphasis_weight=2.0]. *)
Definition default_emphasis_years : Z := 2.
Definition default_base_weight : float := 1.0%float.
Definition default_emphasis_weight : float := 2.0%float.

(** [rankings_by_year] is [Optional]: [None] and the empty dictionary are
    both falsy. *)
Definition create_team_features (team_stats_by_year : dict DataFrame)
    (rankings_by_year : option (dict DataFrame)) (emphasis_years : Z) : result DataFrame :=
  weighted_stats ← weight_by_recency team_stats_by_year emphasis_years
                     default_base_weight default_emphasis_weight;
  _ ← (if from_option truthy false rankings_by_year
       then
         weighted_rankings ← weight_by_recency (default [] rankings_by_year) emphasis_years
                               default_base_weight default_emphasis_weight;
         Return ()
       else Return ());
  Return weighted_stats.

Definition create_matchup_features (team_features : DataFrame)
    (games_by_year : dict DataFrame) (emphasis_years : Z) : result DataFrame :=
  weighted_games ← weight_by_recency games_by_year emphasis_years
                     default_base_weight default_emphasis_weight;
  Return weighted_games.

Definition year_in (target_years : list Z) (year : Z) : bool :=
  bool_decide (year ∈ target_years).

(** The matchup table [prepare_training_data] builds before the split. *)
Definition matchup_table (team_stats_by_year rankings_by_year games_by_year : dict DataFrame)
    (target_years : list Z) : result DataFrame :=
  let filtered_stats := comprehension (year_in target_years) team_stats_by_year in
  let filtered_rankings := comprehension (year_in target_years) rankings_by_year in
  let filtered_games := comprehension (year_in target_years) games_by_year in
  team_features ← create_team_features filtered_stats (Some filtered_rankings)
                    default_emphasis_years;
  create_matchup_features team_features filtered_games default_emphasis_years.

Definition prepare_training_data (team_stats_by_year rankings_by_year games_by_year : dict DataFrame)
    (target_years : list Z) : result (DataFrame * Series) :=
  matchup_features ← matchup_table team_stats_by_year rankings_by_year games_by_year
                       target_years;
  X ← drop_column "outcome" matchup_features;
  y ← getcol "outcome" matchup_features;
  Return (X, y).

(** [rankings_by_year] is a dictionary here, not [Optional]. *)
Definition prepare_tournament_predictions (team_stats_by_year rankings_by_year : dict DataFrame)
    (tournament_matchups : DataFrame) (emphasis_years : Z) : result DataFrame :=
  team_features ← create_team_features team_stats_by_year (Some rankings_by_year)
                    emphasis_years;
  Return tournament_matchups.

End feature_engineering.

(** ** src/data/data_loader.py *)

Module data_loader.

Import pd.

(** What the loaders see of the machine: which paths exist, and what
    [pd.read_csv] makes of an existing path: a frame, or an exception, be it
    one of pandas such as [EmptyDataError] on a file without columns, or a
    [FileNotFoundError] of its own when the file is gone by then. *)
Record FileSystem : Type := mkFileSystem {
  path_exists : string → bool;
  read_csv : string → result DataFrame
}.

(** What a call does that can be observed besides its result. *)
Inductive event : Type :=
| Probe (path : string)      (* os.path.exists(path) *)
| Read (path : string)       (* pd.read_csv(path) *)
| Stdout (line : string).    (* print(line) *)

(** A computation with observable events: the events in order, then the
    result. *)
Definition io (A : Type) : Type := list event * result A.

Fixpoint ends_with_sep (s : string) : bool :=
  match s with
  | EmptyString => false
  | String c EmptyString => bool_decide (c = "/"%char)
  | String _ s' => ends_with_sep s'
  end.

(** [os.path.join(a, b)] on POSIX. *)
Definition path_join (a b : string) : string :=
  if String.prefix "/" b then b
  else if bool_decide (a = "") || ends_with_sep a then a +:+ b
  else a +:+ "/" +:+ b.

(** The body the four loaders share: the file [file] of the year's
    directory, read if it exists; [what] starts the not-found message. *)
Definition load_csv (file what : string) (fs : FileSystem) (year : Z)
    (data_dir : string) : io DataFrame :=
  let file_path := path_join (path_join data_dir (pretty year)) file in
  if path_exists fs file_path
  then ([Probe file_path; Read file_path], read_csv fs file_path)
  else ([Probe file_path],
        Raise (FileNotFoundError (what +:+ " not found for year " +:+ pretty year))).

Definition load_team_stats := load_csv "team_stats.csv" "Team stats file".
Definition load_rankings := load_csv "rankings.csv" "Rankings file".
Definition load_game_results := load_csv "games.csv" "Game results file".
Definition load_tournament_data := load_csv "tournament.csv" "Tournament file".

Definition loaders : list (string * (FileSystem → Z → string → io DataFrame)) :=
  [("team_stats", load_team_stats);
   ("rankings", load_rankings);
   ("games", load_game_results);
   ("tournament", load_tournament_data)].

(** The loop of [load_multi_year_data] from the dictionary built so far:
    [FileNotFoundError] is caught and printed, any other exception leaves
    the loop and the function. *)
Fixpoint load_years (loader : Z → io DataFrame) (years : list Z)
    (result : dict DataFrame) : io (dict DataFrame) :=
  match years with
  | [] => ([], Return result)
  | year :: years' =>
      let '(evs, outcome) := loader year in
      match outcome with
      | Return df =>
          let '(evs', r) := load_years loader years' (setitem year df result) in
          (evs ++ evs', r)
      | Raise (FileNotFoundError _ as e) =>
          let '(evs', r) := load_years loader years' result in
          (evs ++ Stdout ("Warning: " +:+ str_exn e) :: evs', r)
      | Raise e => (evs, Raise e)
      end
  end.

Definition load_multi_year_data (fs : FileSystem) (years : list Z)
    (data_type : string) (data_dir : string) : io (dict DataFrame) :=
  match str_lookup data_type loaders with
  | None =>
      ([], Raise (ValueError ("Unknown data type: " +:+ data_type +:+ ". Must be one of "
                              +:+ repr_str_list (loaders.*1))))
  | Some loader => load_years (λ year, loader fs year data_dir) years []
  end.

End data_loader.

(** ** src/models/model_factory.py *)

Module model_factory.

Import pd.

Inductive class_ : Type :=
| BaseModel
| BaselineModel
| RandomForestModel
| GradientBoostingModel
| SVMModel.

Global Instance class_eq_dec : EqDecision class_.
Proof. solve_decision. Defined.

Definition class_name (c : class_) : string :=
  match c with
  | BaseModel => "BaseModel"
  | BaselineModel => "BaselineModel"
  | RandomForestModel => "RandomForestModel"
  | GradientBoostingModel => "GradientBoostingModel"
  | SVMModel => "SVMModel"
  end.

(** [issubclass(c, c')]: every class derives from [BaseModel] and from
    itself, and from nothing else. *)
Definition issubclass (c c' : class_) : bool :=
  bool_decide (c = c') || bool_decide (c' = BaseModel).

Inductive metric : Type := Accuracy | Precision | Recall | F1.

Definition metric_name (m : metric) : string :=
  match m with
  | Accuracy => "accuracy"
  | Precision => "precision"
  | Recall => "recall"
  | F1 => "f1"
  end.

Section Models.

(** The scikit-learn estimators, as the wrapped value of a model. *)
Context {estimator : Type}.

Abbreviation params := (gmap string value).

(** An instance of [BaseModel] or of one of its subclasses. *)
Record Model : Type := mkModel {
  cls : class_;
  model_params : params;
  model : option estimator;
  is_trained : bool
}.

(** What [pickle.load] may hand back: a model, or an object of another
    type. *)
Inductive pyobj : Type :=
| Instance (m : Model)
| Other (type_name : string).

(** The collaborators: scikit-learn, the metrics, pickle and os. *)
Record Host : Type := mkHost {
  (* the estimator of a class, built from the keyword parameters *)
  sk_new : class_ → params → lib_result estimator;
  sk_fit : estimator → DataFrame → Series → lib_result estimator;
  sk_predict : estimator → DataFrame → lib_result (list value);
  (* accuracy_score, and precision/recall/f1 with average='weighted' *)
  sk_score : metric → Series → list value → lib_result float;
  os_dirname : string → string;
  os_makedirs : string → lib_result ();
  (* open(filepath, 'wb') and pickle.dump(self, f) *)
  pickle_dump : Model → string → lib_result ();
  (* open(filepath, 'rb') and pickle.load(f) *)
  pickle_load : string → lib_result pyobj
}.

Context (host : Host).

(** [cls(model_params)]. *)
Definition init (c : class_) (model_params : option params) : Model :=
  {| cls := c;
     model_params := default ∅ model_params;
     model := None;
     is_trained := false |}.

(** [self.train(X, y)]: the instance after the call, and the outcome. *)
Definition train (self : Model) (X : DataFrame) (y : Series) : Model * result () :=
  match cls self with
  | BaseModel => (self, Raise (NotImplementedError "Subclasses must implement train method"))
  | c =>
      match sk_new host c (model_params self) with
      | Fails o m => (self, Raise (LibraryError o m))
      | Ok est =>
          let self := {| cls := cls self; model_params := model_params self;
                         model := Some est; is_trained := is_trained self |} in
          match sk_fit host est X y with
          | Fails o m => (self, Raise (LibraryError o m))
          | Ok est' =>
              ({| cls := cls self; model_params := model_params self;
                  model := Some est'; is_trained := true |}, Return ())
          end
      end
  end.

Definition _predict_impl (self : Model) (X : DataFrame) : result (list value) :=
  match cls self with
  | BaseModel => Raise (NotImplementedError "Subclasses must implement _predict_impl method")
  | _ =>
      match model self with
      | None => Raise (AttributeError "'NoneType' object has no attribute 'predict'")
      | Some est => lift (sk_predict host est X)
      end
  end.

Definition predict (self : Model) (X : DataFrame) : result (list value) :=
  if negb (is_trained self)
  then Raise (RuntimeError "Model must be trained before making predictions")
  else _predict_impl self X.

Definition evaluate (self : Model) (X : DataFrame) (y : Series)
    : result (list (string * float)) :=
  if negb (is_trained self)
  then Raise (RuntimeError "Model must be trained before evaluation")
  else
    y_pred ← predict self X;
    accuracy ← lift (sk_score host Accuracy y y_pred);
    precision ← lift (sk_score host Precision y y_pred);
    recall ← lift (sk_score host Recall y y_pred);
    f1 ← lift (sk_score host F1 y y_pred);
    Return [(metric_name Accuracy, accuracy); (metric_name Precision, precision);
            (metric_name Recall, recall); (metric_name F1, f1)].

Definition save (self : Model) (filepath : string) : result () :=
  if negb (is_trained self)
  then Raise (RuntimeError "Cannot save untrained model")
  else
    _ ← lift (os_makedirs host (os_dirname host filepath));
    lift (pickle_dump host self filepath).

Definition isinstance (o : pyobj) (c : class_) : bool :=
  match o with
  | Instance m => issubclass (cls m) c
  | Other _ => false
  end.

(** [c.load(filepath)], the class method called on class [c]. *)
Definition load (c : class_) (filepath : string) : result pyobj :=
  model ← lift (pickle_load host filepath);
  if negb (isinstance model c)
  then Raise (TypeError ("Loaded model is not an instance of " +:+ class_name c))
  else Return model.

Definition model_classes : list (string * class_) :=
  [("baseline", BaselineModel);
   ("random_forest", RandomForestModel);
   ("gradient_boosting", GradientBoostingModel);
   ("svm", SVMModel)].

Definition create_model (model_type : string) (model_params : option params)
    : result Model :=
  match str_lookup model_type model_classes with
  | None =>
      Raise (ValueError ("Unknown model type: " +:+ model_type +:+ ". Must be one of "
                         +:+ repr_str_list (model_classes.*1)))
  | Some c => Return (init c model_params)
  end.

End Models.

Global Arguments Model : clear implicits.
Global Arguments pyobj : clear implicits.
Global Arguments Host : clear implicits.

End model_factory.

Import pd feature_engineering data_loader model_factory.

(** ** Vocabulary of the specification *)

(** The last [k] elements of a list (all of it when it is shorter). *)
Definition trailing {A} (k : nat) (l : list A) : list A := drop (length l - k) l.

(** The emphasis window: the suffix of the ascending list of years of
    length [min(emphasis_years, |years|)]. *)
Definition emphasis_window (emphasis_years : Z) (years : list Z) : list Z :=
  let ascending := sorted years in
  trailing (Z.to_nat (Z.min emphasis_years (Z.of_nat (length ascending)))) ascending.

(** The weight a year takes, given the years to emphasise. *)
Definition year_weight (recent : list Z) (base_weight emphasis_weight : float)
    (year : Z) : float :=
  if bool_decide (year ∈ recent) then emphasis_weight else base_weight.

(** A row with its year and weight stamped on. *)
Definition stamp_row (year : Z) (weight : float) (r : Row) : Row :=
  <["weight" := VFloat weight]> (<["year" := VInt year]> r).

(** A table with its year and the weight of that year stamped on. *)
Definition stamp_table (recent : list Z) (base_weight emphasis_weight : float)
    (year : Z) (df : DataFrame) : DataFrame :=
  setcol "weight" (VFloat (year_weight recent base_weight emphasis_weight year))
    (setcol "year" (VInt year) df).

(** The stamped rows one entry of the mapping contributes, in the order of
    the table; none when the table is empty. *)
Definition stamped_rows (recent : list Z) (base_weight emphasis_weight : float)
    (item : Z * DataFrame) : list Row :=
  if empty item.2 then []
  else stamp_row item.1 (year_weight recent base_weight emphasis_weight item.1)
         <$> rows item.2.

(** The rows a table supplies to the aggregation: those of a table that is
    not empty. *)
Definition rows_supplied (df : DataFrame) : nat :=
  if empty df then 0%nat else len df.

(** The property of the weights as the specification words it: each row
    carries one of the two weights, and the emphasis weight exactly when its
    year is in the emphasis window. *)
Definition weights_follow_window (data_by_year : dict DataFrame) (emphasis_years : Z)
    (base_weight emphasis_weight : float) (out : DataFrame) : Prop :=
  ∀ r, r ∈ rows out →
    ∃ y w, r !! "year" = Some (VInt y) ∧ r !! "weight" = Some (VFloat w) ∧
      (w = base_weight ∨ w = emphasis_weight) ∧
      (w = emphasis_weight ↔ y ∈ emphasis_window emphasis_years (keys data_by_year)).

(** The same with the two cases told apart by the window rather than by the
    value of the weight. *)
Definition weights_chosen_by_window (data_by_year : dict DataFrame) (emphasis_years : Z)
    (base_weight emphasis_weight : float) (out : DataFrame) : Prop :=
  ∀ r, r ∈ rows out →
    ∃ y w, r !! "year" = Some (VInt y) ∧ r !! "weight" = Some (VFloat w) ∧
      (w = base_weight ∨ w = emphasis_weight) ∧
      (y ∈ emphasis_window emphasis_years (keys data_by_year) → w = emphasis_weight) ∧
      (y ∉ emphasis_window emphasis_years (keys data_by_year) → w = base_weight) ∧
      (base_weight ≠ emphasis_weight →
       (w = emphasis_weight ↔ y ∈ emphasis_window emphasis_years (keys data_by_year))).

(** [X] is [m] without the column [label]: the other columns in their
    order, and row by row the other cells. *)
Definition without_column (label : string) (m X : DataFrame) : Prop :=
  columns X = filter (λ c, c ≠ label) (columns m)
  ∧ length (rows X) = length (rows m)
  ∧ ∀ i r, rows m !! i = Some r →
      ∃ r', rows X !! i = Some r' ∧ r' !! label = None
            ∧ ∀ c, c ≠ label → r' !! c = r !! c.

(** [y] is the column [label] of [m]: its cells row by row. *)
Definition column_of (label : string) (m : DataFrame) (y : Series) : Prop :=
  name y = label ∧ cells y = (λ r : Row, r !! label) <$> rows m.

(** Sample tables. *)
Definition teams : DataFrame :=
  mkDataFrame ["team"] [ {["team" := VStr "Duke"]}; {["team" := VStr "Gonzaga"]} ].

Definition one_team : DataFrame :=
  mkDataFrame ["team"] [ {["team" := VStr "Kansas"]} ].

Definition no_rows : DataFrame := mkDataFrame ["team"] [].

Definition no_columns : DataFrame := mkDataFrame [] [∅; ∅; ∅].

Definition games_2021 : DataFrame :=
  mkDataFrame ["home"; "outcome"]
    [ {["home" := VStr "Duke"; "outcome" := VInt 1]};
      {["home" := VStr "Kansas"; "outcome" := VInt 0]} ].

(** Sample mappings: four seasons; two seasons; seasons inserted newest
    first. *)
Definition four_years : dict DataFrame :=
  [(2020, teams); (2021, teams); (2022, one_team); (2023, one_team)].

Definition two_years : dict DataFrame := [(2020, one_team); (2021, one_team)].

Definition newest_first : dict DataFrame := [(2023, one_team); (2020, teams)].

(** A season whose table has three rows and no column, and a season with
    two teams. *)
Definition with_no_columns : dict DataFrame := [(2022, no_columns); (2023, teams)].

(** The matchup table of the games of 2021 alone. *)
Definition matchups_2021 : DataFrame :=
  concat [stamp_table [2021] 1.0 2.0 2021 games_2021].

(** The cells of one column of a returned table, row by row. *)
Definition cells_of (label : string) (c : result DataFrame)
    : result (list (option value)) :=
  df ← c; Return ((λ r : Row, r !! label) <$> rows df).

(** A data-type tag is recognized when [loaders] has it. *)
Definition recognized (data_type : string) : Prop := data_type ∈ loaders.*1.

(** The per-year retrieval of a tag: the outcome of
    [loaders[data_type](year, data_dir)]. *)
Definition retrieve (fs : FileSystem) (data_type data_dir : string) (year : Z)
    : result DataFrame :=
  match str_lookup data_type loaders with
  | Some loader => (loader fs year data_dir).2
  | None => Raise (KeyError data_type)
  end.

(** A retrieval signals not-found when it raises [FileNotFoundError]. *)
Definition not_found {A} (outcome : result A) : Prop :=
  ∃ msg, outcome = Raise (FileNotFoundError msg).

(** The warning printed for an outcome, if any. *)
Definition warning_of {A} (outcome : result A) : option string :=
  match outcome with
  | Raise (FileNotFoundError msg) => Some ("Warning: " +:+ msg)
  | _ => None
  end.

(** The lines a call printed. *)
Definition printed (evs : list event) : list string :=
  omap (λ ev, match ev with Stdout line => Some line | _ => None end) evs.

(** Sample machines: the season 2020 is missing; every file exists and is
    empty, which [pd.read_csv] refuses. *)
Definition missing_2020 : FileSystem :=
  {| path_exists := λ p, bool_decide (p = "data/2021/team_stats.csv");
     read_csv := λ _, Return teams |}.

Definition blank_files : FileSystem :=
  {| path_exists := λ _, true;
     read_csv := λ _, Raise (LibraryError "pandas.errors.EmptyDataError"
                                "No columns to parse from file") |}.

(** The class of the deserialized object, when it is a model. *)
Definition variant_of {estimator} (o : pyobj estimator) : option class_ :=
  match o with
  | Instance m => Some (cls m)
  | Other _ => None
  end.

(** The variant classes: those the factory instantiates. *)
Definition is_variant (c : class_) : Prop := c ∈ model_classes.*2.

(** A sample host: estimators are the number of rows they were fitted on,
    every call succeeds, the one pickle on disk is a fitted forest. *)
Definition fitted_forest : Model nat :=
  {| cls := RandomForestModel; model_params := ∅; model := Some 2%nat;
     is_trained := true |}.

Definition sample_host : Host nat :=
  {| sk_new := λ _ _, Ok 0%nat;
     sk_fit := λ _ X _, Ok (len X);
     sk_predict := λ _ X, Ok ((λ _, VInt 1) <$> rows X);
     sk_score := λ _ _ _, Ok 1.0%float;
     os_dirname := λ _, "models";
     os_makedirs := λ _, Ok ();
     pickle_dump := λ _ _, Ok ();
     pickle_load := λ _, Ok (Instance fitted_forest) |}.

(** The features and the target split off the matchup table of 2021. *)
Definition features_2021 : DataFrame :=
  {| columns := filter (λ c, c ≠ "outcome") (columns matchups_2021);
     rows := delete "outcome" <$> rows matchups_2021 |}.

Definition target_2021 : Series :=
  {| name := "outcome"; cells := (λ r : Row, r !! "outcome") <$> rows matchups_2021 |}.

(** A support-vector model after a fit that failed: the estimator is built,
    the model is not marked trained. *)
Definition unfitted_svm : Model nat :=
  {| cls := SVMModel; model_params := ∅; model := Some 0%nat; is_trained := false |}.

(** The file of a year and a tag: [<data_dir>/<year>/<tag>.csv]. *)
Definition year_file (data_dir : string) (year : Z) (data_type : string) : string :=
  path_join (path_join data_dir (pretty year)) (data_type +:+ ".csv").

(** The entry a year contributes to the loaded mapping, if any. *)
Definition loaded_entry (outcome : result DataFrame) (year : Z)
    : option (Z * DataFrame) :=
  match outcome with
  | Return df => Some (year, df)
  | Raise _ => None
  end.

(** A host on which every fit fails, and an untrained support-vector
    model. *)
Definition failing_fit_host : Host nat :=
  {| sk_new := λ _ _, Ok 0%nat;
     sk_fit := λ _ _ _, Fails "ValueError" "Input contains NaN";
     sk_predict := λ est X, Ok ((λ _, VInt (Z.of_nat est)) <$> rows X);
     sk_score := λ _ _ _, Ok 1.0%float;
     os_dirname := λ _, "models";
     os_makedirs := λ _, Ok ();
     pickle_dump := λ _ _, Ok ();
     pickle_load := λ _, Ok (Other "dict") |}.

(** The stamped tables the loop collects, in the order of the mapping. *)
Definition stamped_tables (recent : list Z) (base_weight emphasis_weight : float)
    (d : dict DataFrame) : list DataFrame :=
  d ≫= (λ item, if empty item.2 then []
                else [stamp_table recent base_weight emphasis_weight item.1 item.2]).

(** A table of the mapping that is not empty. *)
Definition has_data (d : dict DataFrame) : Prop :=
  Exists (λ df, empty df = false) (values d).

(** ** Python runtime: facts *)

Lemma sorted_ascending l : Sorted Z.le (sorted l) ∧ sorted l ≡ₚ l.
Proof.
  split.
  - apply (Sorted_merge_sort Z.le).
  - apply merge_sort_Permutation.
Qed.

Lemma sorted_length l : length (sorted l) = length l.
Proof. apply Permutation_length, sorted_ascending. Qed.

Lemma elem_of_sorted y l : y ∈ sorted l ↔ y ∈ l.
Proof. by rewrite (proj2 (sorted_ascending l)). Qed.

(** A negative start counts from the end. *)
Lemma slice_from_neg {A} (k : Z) (l : list A) :
  0 < k → slice_from (- k) l = trailing (Z.to_nat k) l.
Proof.
  intros Hk. unfold slice_from, trailing.
  rewrite bool_decide_true by lia. f_equal. lia.
Qed.

(** The start [-0] is the start [0]: the slice is the whole list. *)
Lemma slice_from_zero {A} (l : list A) : slice_from (- 0) l = l.
Proof. unfold slice_from. simpl. rewrite Z.min_l by lia. done. Qed.

Lemma trailing_ge {A} (k : nat) (l : list A) : (length l ≤ k)%nat → trailing k l = l.
Proof. intros H. unfold trailing. by replace (length l - k)%nat with 0%nat by lia. Qed.

Lemma bind_Return {A B} (c : result A) (k : A → result B) b :
  c ≫= k = Return b ↔ ∃ a, c = Return a ∧ k a = Return b.
Proof.
  destruct c as [a|e]; simpl.
  - split; [eauto | by intros (? & [= <-] & ?)].
  - split; [done | by intros (? & ? & _)].
Qed.

(** ** feature_engineering: the aggregation loop *)

Section Aggregation.

Variables (recent : list Z) (base_weight emphasis_weight : float).

(** One iteration: an empty table is passed over, another is stamped and
    appended. *)
Lemma weigh_year_eq acc year df :
  weigh_year recent base_weight emphasis_weight acc (year, df)
  = if empty df then acc
    else acc ++ [stamp_table recent base_weight emphasis_weight year df].
Proof. reflexivity. Qed.

Lemma stamp_table_rows year df :
  rows (stamp_table recent base_weight emphasis_weight year df)
  = stamp_row year (year_weight recent base_weight emphasis_weight year) <$> rows df.
Proof. unfold stamp_table, stamp_row; simpl. by rewrite <- list_fmap_compose. Qed.

(** A table that is kept is stamped row by row. *)
Lemma weigh_year_rows acc year df :
  weigh_year recent base_weight emphasis_weight acc (year, df) ≫= rows
  = (acc ≫= rows) ++ stamped_rows recent base_weight emphasis_weight (year, df).
Proof.
  rewrite weigh_year_eq. unfold stamped_rows; cbn [fst snd].
  destruct (empty df).
  - by rewrite app_nil_r.
  - rewrite bind_app, bind_cons, stamp_table_rows. simpl. by rewrite app_nil_r.
Qed.

(** The loop appends, entry after entry, in the order of [items()]. *)
Lemma loop_rows d acc :
  fold_left (weigh_year recent base_weight emphasis_weight) d acc ≫= rows
  = (acc ≫= rows) ++ (d ≫= stamped_rows recent base_weight emphasis_weight).
Proof.
  revert acc. induction d as [|[year df] d IH]; intros acc.
  - simpl. by rewrite app_nil_r.
  - cbn [fold_left]. rewrite IH, weigh_year_rows, bind_cons. by rewrite <- app_assoc.
Qed.

(** The loop keeps what it has collected. *)
Lemma loop_extends d acc :
  ∃ more, fold_left (weigh_year recent base_weight emphasis_weight) d acc = acc ++ more.
Proof.
  revert acc. induction d as [|[year df] d IH]; intros acc.
  - exists []. simpl. by rewrite app_nil_r.
  - cbn [fold_left]. rewrite weigh_year_eq.
    destruct (empty df); [apply IH |].
    destruct (IH (acc ++ [stamp_table recent base_weight emphasis_weight year df]))
      as [more ->].
    rewrite <- app_assoc. by eauto.
Qed.

(** It collects nothing exactly when every table is empty. *)
Lemma loop_nil d :
  fold_left (weigh_year recent base_weight emphasis_weight) d [] = []
  ↔ Forall (λ df, empty df = true) (values d).
Proof.
  induction d as [|[year df] d IH].
  - simpl. split; [constructor | done].
  - cbn [fold_left]. rewrite weigh_year_eq.
    change (values ((year, df) :: d)) with (df :: values d). rewrite Forall_cons.
    destruct (empty df) eqn:He.
    + rewrite IH. tauto.
    + destruct (loop_extends d ([] ++ [stamp_table recent base_weight emphasis_weight year df]))
        as [more ->].
      split; [done | by intros [? _]].
Qed.

End Aggregation.

(** Every stamped row carries its year and the weight of that year. *)
Lemma elem_of_stamped_rows recent bw ew (d : dict DataFrame) r :
  r ∈ d ≫= stamped_rows recent bw ew →
  ∃ y, y ∈ keys d ∧ r !! "year" = Some (VInt y)
       ∧ r !! "weight" = Some (VFloat (year_weight recent bw ew y)).
Proof.
  rewrite list_elem_of_bind. intros ([y df] & Hr & Hin).
  unfold stamped_rows in Hr; simpl in Hr.
  destruct (empty df); [by apply elem_of_nil in Hr |].
  apply list_elem_of_fmap in Hr as (r0 & -> & _).
  exists y. split; [| split].
  - unfold keys. apply list_elem_of_fmap. by exists (y, df).
  - unfold stamp_row. rewrite lookup_insert_ne by done. by rewrite lookup_insert_eq.
  - unfold stamp_row. by rewrite lookup_insert_eq.
Qed.

Lemma stamped_rows_length recent bw ew (d : dict DataFrame) :
  length (d ≫= stamped_rows recent bw ew) = sum_list (rows_supplied <$> values d).
Proof.
  induction d as [|[y df] d IH]; [done |].
  rewrite bind_cons, length_app, IH.
  change (values ((y, df) :: d)) with (df :: values d). rewrite fmap_cons.
  cbn [sum_list sum_list_with]. f_equal.
  unfold stamped_rows, rows_supplied, len; cbn [fst snd].
  destruct (empty df); [done | by rewrite length_fmap].
Qed.

(** A table with a column supplies all its rows. *)
Lemma rows_supplied_len df :
  (columns df = [] → rows df = []) → rows_supplied df = len df.
Proof.
  unfold rows_supplied, empty, len. intros H.
  destruct (columns df), (rows df); try done. by discriminate H.
Qed.

(** What [weight_by_recency] returns, when it returns. *)
Lemma weight_by_recency_Return d e bw ew out :
  weight_by_recency d e bw ew = Return out →
  rows out = d ≫= stamped_rows (recent_years (sorted (keys d)) e) bw ew.
Proof.
  unfold weight_by_recency, items. destruct (negb (truthy d)); [done |].
  destruct (fold_left _ d []) as [|df dfs] eqn:Hloop; [done |].
  intros [= <-]. rewrite <- Hloop. unfold concat; cbn [rows].
  by rewrite loop_rows.
Qed.

Lemma forallb_empty (dfs : list DataFrame) :
  forallb empty dfs = true ↔ Forall (λ df, empty df = true) dfs.
Proof.
  induction dfs as [|df dfs IH]; simpl.
  - split; [constructor | done].
  - rewrite andb_true_iff, Forall_cons, IH. tauto.
Qed.

(** When it returns and when it raises. *)
Lemma weight_by_recency_cases d e bw ew :
  match d with
  | [] => weight_by_recency d e bw ew = Raise (ValueError "No data provided")
  | _ :: _ =>
      if forallb empty (values d)
      then weight_by_recency d e bw ew = Raise (ValueError "No valid data frames to combine")
      else returns (weight_by_recency d e bw ew)
  end.
Proof.
  destruct d as [|item d']; [done |].
  set (d := item :: d'). unfold weight_by_recency, items.
  change (negb (truthy d)) with false. cbv iota.
  destruct (forallb empty (values d)) eqn:Hall.
  - apply forallb_empty in Hall.
    apply loop_nil with (recent := recent_years (sorted (keys d)) e)
      (base_weight := bw) (emphasis_weight := ew) in Hall. by rewrite Hall.
  - destruct (fold_left _ d []) eqn:Hloop; [| by eexists].
    apply loop_nil, forallb_empty in Hloop. congruence.
Qed.

Lemma weight_by_recency_returns d e bw ew :
  Exists (λ df, empty df = false) (values d) → returns (weight_by_recency d e bw ew).
Proof.
  intros Hex. pose proof (weight_by_recency_cases d e bw ew) as Hc.
  destruct d as [|item d']; [by apply Exists_nil in Hex |].
  destruct (forallb empty (values (item :: d'))) eqn:Hall; [| done].
  apply forallb_empty in Hall.
  apply Exists_exists in Hex as (df & Hdf & Hne).
  apply (proj1 (Forall_forall _ _) Hall) in Hdf. congruence.
Qed.

(** From one year on, the years the code emphasises are the emphasis
    window. *)
Lemma recent_years_window (years : list Z) e :
  1 ≤ e → recent_years (sorted years) e = emphasis_window e years.
Proof.
  intros He. unfold recent_years, emphasis_window. cbv zeta.
  case_bool_decide as Hle.
  - rewrite slice_from_neg by lia. f_equal. lia.
  - rewrite trailing_ge; [done | lia].
Qed.

(** With no year to emphasise the code emphasises every year. *)
Lemma recent_years_zero (years : list Z) : recent_years years 0 = years.
Proof.
  unfold recent_years. rewrite bool_decide_true by lia. apply slice_from_zero.
Qed.

(** ** feature_engineering: the properties of the specification *)

(** C1 (amended). For every non-empty mapping of year to non-empty table
    and every [emphasis_years] of at least one, [weight_by_recency] returns a
    table each row of which carries its year and a weight that is the
    emphasis weight when the year lies in the suffix of the ascending year
    list of length [min(emphasis_years, |years|)] and the base weight
    otherwise; so the weight is one of the two, and when the two weights
    differ it is the emphasis weight exactly for the years of that suffix. *)
Theorem weight_by_recency_weights (d : dict DataFrame) e bw ew :
  d ≠ [] →
  Forall (λ df, empty df = false) (values d) →
  1 ≤ e →
  ∃ out, weight_by_recency d e bw ew = Return out
         ∧ weights_chosen_by_window d e bw ew out.
Proof.
  intros Hne Hall He.
  destruct (weight_by_recency_returns d e bw ew) as [out Hout].
  { destruct d as [|[y df] d']; [done |]. apply Exists_cons_hd.
    by inversion Hall. }
  exists out. split; [done |].
  intros r Hr. rewrite (weight_by_recency_Return _ _ _ _ _ Hout) in Hr.
  apply elem_of_stamped_rows in Hr as (y & _ & Hy & Hw).
  rewrite recent_years_window in Hw by done.
  exists y, (year_weight (emphasis_window e (keys d)) bw ew y).
  split; [done |]. split; [done |].
  unfold year_weight. case_bool_decide as Hin.
  - split; [by right |]. split; [done |]. split; [done |]. tauto.
  - split; [by left |]. split; [done |]. split; [done |].
    intros Hdiff. split; [congruence | done].
Qed.

(** C2 (amended). Whenever at least one table is non-empty, the table
    returned has as many rows as the input tables that are not empty have
    together: a table that [df.empty] holds empty, for want of a row or of a
    column, is passed over and supplies none.  When no table has rows
    without columns, that is the sum of the row counts of all input
    tables. *)
Theorem weight_by_recency_row_count (d : dict DataFrame) e bw ew :
  Exists (λ df, empty df = false) (values d) →
  ∃ out, weight_by_recency d e bw ew = Return out
         ∧ len out = sum_list (rows_supplied <$> values d)
         ∧ (Forall (λ df, columns df = [] → rows df = []) (values d) →
            len out = sum_list (len <$> values d)).
Proof.
  intros Hex. destruct (weight_by_recency_returns d e bw ew Hex) as [out Hout].
  exists out. split; [done |].
  assert (len out = sum_list (rows_supplied <$> values d)) as Hlen.
  { unfold len. rewrite (weight_by_recency_Return _ _ _ _ _ Hout).
    apply stamped_rows_length. }
  split; [done |]. intros Hwf. rewrite Hlen. f_equal.
  apply Forall_fmap_ext_1. eapply Forall_impl; [exact Hwf |].
  intros df. apply rows_supplied_len.
Qed.

(** C3. On the empty mapping [weight_by_recency] raises [ValueError] with
    one message, on a non-empty mapping of empty tables it raises
    [ValueError] with another message, and in every other case it returns. *)
Theorem weight_by_recency_errors (d : dict DataFrame) e bw ew :
  (d = [] → weight_by_recency d e bw ew = Raise (ValueError "No data provided"))
  ∧ (d ≠ [] → Forall (λ df, empty df = true) (values d) →
     weight_by_recency d e bw ew = Raise (ValueError "No valid data frames to combine"))
  ∧ (Exists (λ df, empty df = false) (values d) →
     returns (weight_by_recency d e bw ew))
  ∧ ValueError "No data provided" ≠ ValueError "No valid data frames to combine".
Proof.
  split; [by intros -> |]. split; [| split; [apply weight_by_recency_returns | done]].
  intros Hne Hall. pose proof (weight_by_recency_cases d e bw ew) as Hc.
  destruct d as [|item d']; [done |].
  apply forallb_empty in Hall. by rewrite Hall in Hc.
Qed.


(** C5. [create_team_features] is a pass-through of [weight_by_recency] on
    the team statistics: it returns a table exactly when [weight_by_recency]
    returns that table on the statistics and, where rankings are given, the
    weighting of the rankings returns too; the rankings do not show in the
    result.  [create_matchup_features] does on every input what
    [weight_by_recency] does on the games, whatever the team features. *)
Theorem feature_builders_pass_through (team_stats games : dict DataFrame)
    (rankings : option (dict DataFrame)) (team_features : DataFrame) e :
  (∀ r, create_team_features team_stats rankings e = Return r
        ↔ weight_by_recency team_stats e default_base_weight default_emphasis_weight
          = Return r
          ∧ (from_option truthy false rankings = true →
             returns (weight_by_recency (default [] rankings) e
                        default_base_weight default_emphasis_weight)))
  ∧ create_matchup_features team_features games e
    = weight_by_recency games e default_base_weight default_emphasis_weight.
Proof.
  split.
  - intros r. unfold create_team_features.
    destruct (weight_by_recency team_stats e _ _) as [stats | x]; simpl;
      [| split; [done | by intros [? _]]].
    destruct (from_option truthy false rankings); simpl.
    + destruct (weight_by_recency (default [] rankings) e _ _) as [w | x]; simpl.
      * split; [intros [= <-]; split; [done | by eexists] | by intros [[= <-] _]].
      * split; [done |]. intros [_ Hret]. by destruct (Hret eq_refl) as [? [=]].
    + split; [by intros [= <-] | by intros [[= <-] _]].
  - unfold create_matchup_features.
    by destruct (weight_by_recency games e _ _).
Qed.

(** C8. When the matchup table has a column [outcome],
    [prepare_training_data] returns the table without that column (the other
    columns in their order, every row with its other cells) and the cells of
    that column, row by row; when it has none, [prepare_training_data] raises
    the [KeyError] of [df.drop]. *)
Theorem prepare_training_data_split (team_stats rankings games : dict DataFrame)
    (target_years : list Z) (m : DataFrame) :
  matchup_table team_stats rankings games target_years = Return m →
  ("outcome" ∈ columns m →
   ∃ X y, prepare_training_data team_stats rankings games target_years = Return (X, y)
          ∧ without_column "outcome" m X ∧ column_of "outcome" m y)
  ∧ ("outcome" ∉ columns m →
     prepare_training_data team_stats rankings games target_years
     = Raise (KeyError "['outcome'] not found in axis")).
Proof.
  intros Hm. unfold prepare_training_data. rewrite Hm.
  change (Return m ≫= ?k) with (k m). cbv beta.
  unfold drop_column, getcol. split; intros Hcol.
  - rewrite !bool_decide_true by done. simpl.
    eexists _, _. split; [reflexivity |]. split; [| done].
    split; [done |]. split; [by simpl; rewrite length_fmap |].
    intros i r Hi. exists (delete "outcome" r). simpl.
    split; [by rewrite list_lookup_fmap, Hi |].
    split; [by rewrite lookup_delete_eq |].
    intros c Hc. by rewrite lookup_delete_ne.
  - by rewrite bool_decide_false by done.
Qed.

(** *** The properties on sample mappings *)

Lemma weight_by_recency_weights_witness :
  ∃ out, weight_by_recency four_years 2 1.0 2.0 = Return out
         ∧ weights_chosen_by_window four_years 2 1.0 2.0 out.
Proof.
  apply weight_by_recency_weights; [done | repeat constructor | lia].
Defined.

(** Four seasons and two years to emphasise: the rows of 2022 and 2023 get
    the emphasis weight, those of 2020 and 2021 the base weight. *)
Example four_years_weights :
  cells_of "weight" (weight_by_recency four_years 2 1.0 2.0)
  = Return [Some (VFloat 1.0); Some (VFloat 1.0); Some (VFloat 1.0); Some (VFloat 1.0);
            Some (VFloat 2.0); Some (VFloat 2.0)].
Proof. vm_compute. reflexivity. Qed.

(** One season and two years to emphasise: the window is clamped and every
    row gets the emphasis weight. *)
Example single_year_weights :
  cells_of "weight" (weight_by_recency [(2023, teams)] 2 1.0 2.0)
  = Return [Some (VFloat 2.0); Some (VFloat 2.0)].
Proof. vm_compute. reflexivity. Qed.

(** C1 as worded fails when the two weights are equal: with one year to
    emphasise the row of 2020 carries the emphasis weight, being the base
    weight, and 2020 is not in the window.  It fails as well with no year to
    emphasise: the window is empty, and the row of 2020 carries the emphasis
    weight. *)
Lemma weights_follow_window_fails :
  two_years ≠ []
  ∧ Forall (λ df, empty df = false) (values two_years)
  ∧ (∃ out, weight_by_recency two_years 1 1.0 1.0 = Return out
            ∧ ¬ weights_follow_window two_years 1 1.0 1.0 out)
  ∧ (∃ out, weight_by_recency two_years 0 1.0 2.0 = Return out
            ∧ ¬ weights_follow_window two_years 0 1.0 2.0 out).
Proof.
  split; [done |]. split; [repeat constructor |]. split.
  - destruct (weight_by_recency_returns two_years 1 1.0 1.0) as [out Hout].
    { by apply Exists_cons_hd. }
    exists out. split; [done |]. intros Hclaim.
    pose proof (weight_by_recency_Return _ _ _ _ _ Hout) as Hrows.
    destruct (Hclaim (stamp_row 2020 1.0 {["team" := VStr "Kansas"]}))
      as (y & w & Hy & Hw & _ & Hiff).
    { rewrite Hrows. apply list_elem_of_lookup. exists 0%nat. vm_compute. reflexivity. }
    assert (y = 2020) as ->.
    { unfold stamp_row in Hy. rewrite lookup_insert_ne, lookup_insert_eq in Hy by done.
      congruence. }
    assert (w = 1.0%float) as ->.
    { unfold stamp_row in Hw. rewrite lookup_insert_eq in Hw. congruence. }
    assert (emphasis_window 1 (keys two_years) = [2021]) as Hwin
      by (vm_compute; reflexivity).
    rewrite Hwin in Hiff. apply proj1 in Hiff. specialize (Hiff eq_refl).
    by apply list_elem_of_singleton in Hiff.
  - destruct (weight_by_recency_returns two_years 0 1.0 2.0) as [out Hout].
    { by apply Exists_cons_hd. }
    exists out. split; [done |]. intros Hclaim.
    pose proof (weight_by_recency_Return _ _ _ _ _ Hout) as Hrows.
    destruct (Hclaim (stamp_row 2020 2.0 {["team" := VStr "Kansas"]}))
      as (y & w & Hy & Hw & _ & Hiff).
    { rewrite Hrows. apply list_elem_of_lookup. exists 0%nat. vm_compute. reflexivity. }
    assert (w = 2.0%float) as ->.
    { unfold stamp_row in Hw. rewrite lookup_insert_eq in Hw. congruence. }
    assert (emphasis_window 0 (keys two_years) = []) as Hwin
      by (vm_compute; reflexivity).
    rewrite Hwin in Hiff. apply proj1 in Hiff. specialize (Hiff eq_refl).
    by apply elem_of_nil in Hiff.
Qed.

(** With [emphasis_years = 0] the slice [years[-0:]] is the whole list: every
    row gets the emphasis weight, though the window of length zero is
    empty. *)
Example zero_emphasis_years_weights :
  cells_of "weight" (weight_by_recency two_years 0 1.0 2.0)
  = Return [Some (VFloat 2.0); Some (VFloat 2.0)]
  ∧ emphasis_window 0 (keys two_years) = [].
Proof. split; vm_compute; reflexivity. Qed.

Lemma weight_by_recency_row_count_witness :
  ∃ out, weight_by_recency ((2019, no_rows) :: four_years) 2 1.0 2.0 = Return out
         ∧ len out = sum_list (rows_supplied <$> values ((2019, no_rows) :: four_years))
         ∧ (Forall (λ df, columns df = [] → rows df = [])
              (values ((2019, no_rows) :: four_years)) →
            len out = sum_list (len <$> values ((2019, no_rows) :: four_years))).
Proof.
  apply weight_by_recency_row_count. apply Exists_cons_tl, Exists_cons_hd. reflexivity.
Defined.

(** C2 as worded fails on a table with rows and no column: pandas holds it
    empty, the loop passes over it, and the table returned has the two rows
    of 2023 where the input tables have five. *)
Lemma row_count_misses_table_without_columns :
  Exists (λ df, empty df = false) (values with_no_columns)
  ∧ ∃ out, weight_by_recency with_no_columns 2 1.0 2.0 = Return out
           ∧ len out = 2%nat
           ∧ sum_list (len <$> values with_no_columns) = 5%nat
           ∧ len out ≠ sum_list (len <$> values with_no_columns).
Proof.
  split; [by apply Exists_cons_tl, Exists_cons_hd |].
  exists (concat (stamped_tables [2022; 2023] 1.0 2.0 with_no_columns)).
  split; [reflexivity |]. split; [reflexivity |]. split; [reflexivity |].
  vm_compute. discriminate.
Qed.

(** Six rows from four seasons, none from the season without rows. *)
Example four_years_row_count :
  length <$> cells_of "year" (weight_by_recency ((2019, no_rows) :: four_years) 2 1.0 2.0)
  = Return 6%nat.
Proof. vm_compute. reflexivity. Qed.

Lemma weight_by_recency_errors_witness :
  weight_by_recency [] 2 1.0 2.0 = Raise (ValueError "No data provided")
  ∧ weight_by_recency [(2023, no_rows)] 2 1.0 2.0
    = Raise (ValueError "No valid data frames to combine")
  ∧ returns (weight_by_recency [(2022, no_rows); (2023, teams)] 2 1.0 2.0).
Proof.
  split; [| split].
  - by apply (weight_by_recency_errors [] 2 1.0 2.0).
  - apply (weight_by_recency_errors [(2023, no_rows)] 2 1.0 2.0); [done |].
    by repeat constructor.
  - apply (weight_by_recency_errors [(2022, no_rows); (2023, teams)] 2 1.0 2.0).
    by apply Exists_cons_tl, Exists_cons_hd.
Defined.

(** A table with an index and no column is empty for pandas too. *)
Example no_columns_is_empty :
  weight_by_recency [(2023, no_columns)] 2 1.0 2.0
  = Raise (ValueError "No valid data frames to combine").
Proof. reflexivity. Qed.


(** The season inserted first comes first, though it is the newest. *)
Example newest_first_order :
  cells_of "year" (weight_by_recency newest_first 1 1.0 2.0)
  = Return [Some (VInt 2023); Some (VInt 2020); Some (VInt 2020)]
  ∧ cells_of "team" (weight_by_recency newest_first 1 1.0 2.0)
    = Return [Some (VStr "Kansas"); Some (VStr "Duke"); Some (VStr "Gonzaga")]
  ∧ cells_of "weight" (weight_by_recency newest_first 1 1.0 2.0)
    = Return [Some (VFloat 2.0); Some (VFloat 1.0); Some (VFloat 1.0)].
Proof. repeat split; vm_compute; reflexivity. Qed.

Lemma feature_builders_pass_through_witness :
  create_team_features four_years (Some two_years) 2
  = Return (concat (stamped_tables [2022; 2023] 1.0 2.0 four_years))
  ∧ create_matchup_features teams two_years 2
    = Return (concat (stamped_tables [2020; 2021] 1.0 2.0 two_years)).
Proof.
  split.
  - apply (proj1 (feature_builders_pass_through four_years [] (Some two_years) teams 2)).
    split; [reflexivity |]. intros _. by eexists.
  - rewrite (proj2 (feature_builders_pass_through [] two_years None teams 2)).
    reflexivity.
Defined.

(** The rankings are weighted and dropped, yet their weighting can raise:
    [create_team_features] then raises though the statistics are fine. *)
Example create_team_features_empty_rankings :
  create_team_features four_years (Some [(2023, no_rows)]) 2
  = Raise (ValueError "No valid data frames to combine")
  ∧ returns (weight_by_recency four_years 2 default_base_weight default_emphasis_weight).
Proof. split; [reflexivity | by eexists]. Qed.

Lemma prepare_training_data_split_witness :
  ("outcome" ∈ columns matchups_2021 →
   ∃ X y, prepare_training_data [(2021, teams)] [] [(2020, teams); (2021, games_2021)] [2021]
          = Return (X, y)
          ∧ without_column "outcome" matchups_2021 X
          ∧ column_of "outcome" matchups_2021 y)
  ∧ ("outcome" ∉ columns matchups_2021 →
     prepare_training_data [(2021, teams)] [] [(2020, teams); (2021, games_2021)] [2021]
     = Raise (KeyError "['outcome'] not found in axis")).
Proof.
  apply prepare_training_data_split. reflexivity.
Defined.

Example prepare_training_data_sample :
  snd <$> prepare_training_data [(2021, teams)] [] [(2020, teams); (2021, games_2021)] [2021]
  = Return (mkSeries "outcome" [Some (VInt 1); Some (VInt 0)])
  ∧ (columns ∘ fst) <$>
      prepare_training_data [(2021, teams)] [] [(2020, teams); (2021, games_2021)] [2021]
    = Return ["home"; "year"; "weight"].
Proof. split; vm_compute; reflexivity. Qed.

(** Without an [outcome] column the split raises. *)
Example prepare_training_data_no_outcome :
  prepare_training_data [(2021, teams)] [] [(2021, teams)] [2021]
  = Raise (KeyError "['outcome'] not found in axis").
Proof. reflexivity. Qed.

(** ** data_loader *)

Lemma str_lookup_None {V} (k : string) (d : list (string * V)) :
  k ∉ d.*1 → str_lookup k d = None.
Proof.
  unfold str_lookup. induction d as [|[k' v] d IH]; [done |].
  rewrite fmap_cons, not_elem_of_cons. intros [Hne Hnin]. simpl.
  rewrite bool_decide_false by done. by apply IH.
Qed.

(** Writing to a dictionary. *)
Lemma elem_of_keys_setitem {V} (k y : Z) (v : V) (d : dict V) :
  y ∈ keys (setitem k v d) ↔ y = k ∨ y ∈ keys d.
Proof.
  unfold keys. induction d as [|[k' v'] d IH]; simpl.
  - rewrite list_elem_of_singleton, elem_of_nil. tauto.
  - case_bool_decide as Hk; simpl.
    + subst k'. rewrite !elem_of_cons. tauto.
    + rewrite !elem_of_cons, IH. tauto.
Qed.

Lemma NoDup_keys_setitem {V} (k : Z) (v : V) (d : dict V) :
  NoDup (keys d) → NoDup (keys (setitem k v d)).
Proof.
  induction d as [|[k' v'] d IH]; simpl.
  - intros _. apply NoDup_singleton.
  - rewrite NoDup_cons. intros [Hnin Hnd].
    case_bool_decide as Hk.
    + subst k'. by apply NoDup_cons.
    + apply NoDup_cons. split; [| by apply IH].
      intros Hin. apply (elem_of_keys_setitem k k' v d) in Hin as [-> | Hin]; done.
Qed.

Lemma elem_of_setitem {V} (k y : Z) (v w : V) (d : dict V) :
  (y, w) ∈ setitem k v d → (y = k ∧ w = v) ∨ (y, w) ∈ d.
Proof.
  induction d as [|[k' v'] d IH]; simpl.
  - intros [= -> ->]%list_elem_of_singleton. by left.
  - case_bool_decide as Hk.
    + rewrite !elem_of_cons. intros [[= -> ->] | Hin]; [by left | right; by right].
    + rewrite !elem_of_cons. intros [Heq | Hin]; [right; by left |].
      destruct (IH Hin) as [? | ?]; [by left | right; by right].
Qed.

Lemma printed_app evs evs' : printed (evs ++ evs') = printed evs ++ printed evs'.
Proof. unfold printed. apply omap_app. Qed.

Section Loop.

Variable loader : Z → io DataFrame.

(** The loaders print nothing themselves. *)
Hypothesis loader_silent : ∀ year, printed (loader year).1 = [].

(** The loop when every retrieval succeeds or signals not-found. *)
Lemma load_years_spec years (d : dict DataFrame) :
  (∀ y, y ∈ years → returns (loader y).2 ∨ not_found (loader y).2) →
  ∃ d', (load_years loader years d).2 = Return d'
    ∧ (NoDup (keys d) → NoDup (keys d'))
    ∧ (∀ y, y ∈ keys d' ↔ y ∈ keys d ∨ (y ∈ years ∧ returns (loader y).2))
    ∧ (∀ y df, (y, df) ∈ d' → (y, df) ∈ d ∨ (loader y).2 = Return df)
    ∧ printed (load_years loader years d).1 = omap (λ y, warning_of (loader y).2) years.
Proof.
  revert d. induction years as [|year years IH]; intros d Hok.
  - exists d. simpl. split; [done |]. split; [done |].
    split; [| split; [by left | done]].
    intros y. split; [by left |]. intros [? | [?%elem_of_nil _]]; done.
  - assert (∀ y, y ∈ years → returns (loader y).2 ∨ not_found (loader y).2) as Hok'.
    { intros y Hy. apply Hok. by right. }
    pose proof (loader_silent year) as Hsilent.
    destruct (Hok year) as [[df Hdf] | [msg Hmsg]]; [by left | |].
    + destruct (IH (setitem year df d) Hok') as (d' & Hd' & Hnd & Hk & Hv & Hp).
      exists d'. cbn [load_years omap list_omap].
      destruct (loader year) as [evs outcome] eqn:Hload.
      simpl in Hdf, Hsilent. subst outcome.
      destruct (load_years loader years (setitem year df d)) as [evs' r].
      simpl in Hd', Hp. simpl. split; [done |].
      split; [intros ?; by apply Hnd, NoDup_keys_setitem |].
      split; [| split].
      * intros y. rewrite Hk, elem_of_keys_setitem, elem_of_cons.
        split.
        -- intros [[-> | ?] | [? ?]]; [right | by left | right; split; eauto].
           split; [by left |]. rewrite Hload. by eexists.
        -- intros [? | [[-> | ?] ?]]; [left; by right | left; by left | right; done].
      * intros y df' Hin. destruct (Hv y df' Hin) as [Hset | ?]; [| by right].
        apply elem_of_setitem in Hset as [[-> ->] | ?]; [| by left].
        right. by rewrite Hload.
      * rewrite printed_app, Hsilent, Hp. done.
    + destruct (IH d Hok') as (d' & Hd' & Hnd & Hk & Hv & Hp).
      exists d'. cbn [load_years omap list_omap].
      destruct (loader year) as [evs outcome] eqn:Hload.
      simpl in Hmsg, Hsilent. subst outcome.
      destruct (load_years loader years d) as [evs' r].
      simpl in Hd', Hp. simpl. split; [done |]. split; [done |].
      split; [| split; [done |]].
      * intros y. rewrite Hk, elem_of_cons. split.
        -- intros [? | [? ?]]; [by left | right; split; eauto].
        -- intros [? | [[-> | ?] Hret]]; [by left | | right; done].
           rewrite Hload in Hret. by destruct Hret as [? [=]].
      * rewrite printed_app, Hsilent. simpl. by rewrite Hp.
Qed.

End Loop.

Lemma load_csv_silent file what fs year data_dir :
  printed (load_csv file what fs year data_dir).1 = [].
Proof. unfold load_csv. by destruct (path_exists fs _). Qed.

(** A recognized tag has a loader, and the loaders print nothing. *)
Lemma recognized_loader data_type :
  recognized data_type →
  ∃ loader, str_lookup data_type loaders = Some loader
            ∧ ∀ fs year data_dir, printed (loader fs year data_dir).1 = [].
Proof.
  unfold recognized, loaders. simpl. rewrite !elem_of_cons.
  intros [-> | [-> | [-> | [-> | ?%elem_of_nil]]]]; [| | | | done];
    (eexists; split; [reflexivity | intros; apply load_csv_silent]).
Qed.

(** C6 (amended). For every list of years and recognized tag, when every
    per-year retrieval either succeeds or signals not-found,
    [load_multi_year_data] returns a mapping with distinct keys whose years
    are exactly the requested years whose retrieval succeeded, each with the
    table retrieved; it prints one warning for each requested year whose
    retrieval signals not-found, in the order of the request, and the mapping
    is empty when every year is not found. *)
Theorem load_multi_year_data_skips_missing fs (years : list Z) data_type data_dir :
  recognized data_type →
  (∀ y, y ∈ years → returns (retrieve fs data_type data_dir y)
                    ∨ not_found (retrieve fs data_type data_dir y)) →
  ∃ d, (load_multi_year_data fs years data_type data_dir).2 = Return d
    ∧ NoDup (keys d)
    ∧ (∀ y, y ∈ keys d ↔ y ∈ years ∧ returns (retrieve fs data_type data_dir y))
    ∧ (∀ y df, (y, df) ∈ d → retrieve fs data_type data_dir y = Return df)
    ∧ printed (load_multi_year_data fs years data_type data_dir).1
      = omap (λ y, warning_of (retrieve fs data_type data_dir y)) years
    ∧ ((∀ y, y ∈ years → not_found (retrieve fs data_type data_dir y)) → d = []).
Proof.
  intros (loader & Hloader & Hsilent)%recognized_loader.
  unfold retrieve, load_multi_year_data. rewrite Hloader. intros Hok.
  destruct (load_years_spec (λ year, loader fs year data_dir)
              (λ year, Hsilent fs year data_dir) years [] Hok)
    as (d & Hd & Hnd & Hk & Hv & Hp).
  exists d. split; [done |]. split; [apply Hnd, NoDup_nil_2 |].
  split; [| split; [| split; [done |]]].
  - intros y. rewrite Hk. split; [| by right].
    intros [?%elem_of_nil | ?]; done.
  - intros y df Hin. by destruct (Hv y df Hin) as [?%elem_of_nil | ?].
  - intros Hnone. destruct d as [|[y df] d']; [done |]. exfalso.
    assert (y ∈ keys ((y, df) :: d')) as Hy by (by left).
    apply Hk in Hy as [?%elem_of_nil | [Hy [df' Hret]]]; [done |].
    destruct (Hnone y Hy) as [msg Hmsg]. congruence.
Qed.

(** The season 2020 missing: the mapping has 2021 alone, one warning is
    printed and nothing is raised. *)
Lemma load_multi_year_data_skips_missing_witness :
  ∃ d, (load_multi_year_data missing_2020 [2020; 2021] "team_stats" "data").2 = Return d
    ∧ NoDup (keys d)
    ∧ (∀ y, y ∈ keys d
            ↔ y ∈ [2020; 2021] ∧ returns (retrieve missing_2020 "team_stats" "data" y))
    ∧ (∀ y df, (y, df) ∈ d → retrieve missing_2020 "team_stats" "data" y = Return df)
    ∧ printed (load_multi_year_data missing_2020 [2020; 2021] "team_stats" "data").1
      = omap (λ y, warning_of (retrieve missing_2020 "team_stats" "data" y)) [2020; 2021]
    ∧ ((∀ y, y ∈ [2020; 2021] → not_found (retrieve missing_2020 "team_stats" "data" y)) →
       d = []).
Proof.
  apply load_multi_year_data_skips_missing.
  - by left.
  - intros y [-> | [-> | ?%elem_of_nil]%elem_of_cons]%elem_of_cons; [| | done].
    + right. by eexists.
    + left. by eexists.
Defined.

Example load_multi_year_data_missing_2020 :
  load_multi_year_data missing_2020 [2020; 2021] "team_stats" "data"
  = ([Probe "data/2020/team_stats.csv";
      Stdout "Warning: Team stats file not found for year 2020";
      Probe "data/2021/team_stats.csv";
      Read "data/2021/team_stats.csv"],
     Return [(2021, teams)]).
Proof. reflexivity. Qed.

(** C6 as worded fails when a file exists and [pd.read_csv] refuses it: the
    exception is not a [FileNotFoundError], and leaves the call. *)
Lemma load_multi_year_data_raises_on_blank_file :
  recognized "team_stats"
  ∧ load_multi_year_data blank_files [2020; 2021] "team_stats" "data"
    = ([Probe "data/2020/team_stats.csv"; Read "data/2020/team_stats.csv"],
       Raise (LibraryError "pandas.errors.EmptyDataError" "No columns to parse from file"))
  ∧ ¬ returns (load_multi_year_data blank_files [2020; 2021] "team_stats" "data").2.
Proof.
  split; [by left |]. split; [reflexivity |]. by intros [d [=]].
Qed.

(** C7. On a tag that [loaders] does not have, [load_multi_year_data] raises
    [ValueError] having probed, read and printed nothing; on a tag that
    [model_classes] does not have, [create_model] raises [ValueError] and
    makes no model. *)
Theorem unknown_tags_fail_fast :
  (∀ fs years data_type data_dir,
     data_type ∉ ["team_stats"; "rankings"; "games"; "tournament"] →
     load_multi_year_data fs years data_type data_dir
     = ([], Raise (ValueError ("Unknown data type: " +:+ data_type +:+
          ". Must be one of ['team_stats', 'rankings', 'games', 'tournament']"))))
  ∧ (∀ (estimator : Type) model_type (model_params : option (gmap string value)),
       model_type ∉ ["baseline"; "random_forest"; "gradient_boosting"; "svm"] →
       create_model (estimator := estimator) model_type model_params
       = Raise (ValueError ("Unknown model type: " +:+ model_type +:+
           ". Must be one of ['baseline', 'random_forest', 'gradient_boosting', 'svm']"))).
Proof.
  split.
  - intros fs years data_type data_dir Hnot. unfold load_multi_year_data.
    by rewrite str_lookup_None.
  - intros estimator model_type model_params Hnot. unfold create_model.
    by rewrite str_lookup_None.
Qed.

Lemma unknown_tags_fail_fast_witness :
  load_multi_year_data missing_2020 [2020; 2021] "polls" "data"
  = ([], Raise (ValueError
       "Unknown data type: polls. Must be one of ['team_stats', 'rankings', 'games', 'tournament']"))
  ∧ create_model (estimator := nat) "unknown" None
    = Raise (ValueError
        "Unknown model type: unknown. Must be one of ['baseline', 'random_forest', 'gradient_boosting', 'svm']").
Proof.
  split.
  - apply (proj1 unknown_tags_fail_fast missing_2020 [2020; 2021] "polls" "data").
    rewrite !not_elem_of_cons. repeat split; [done .. | apply not_elem_of_nil].
  - apply (proj2 unknown_tags_fail_fast nat "unknown" None).
    rewrite !not_elem_of_cons. repeat split; [done .. | apply not_elem_of_nil].
Defined.

(** ** model_factory *)

Section ModelFacts.

Context {estimator : Type} (host : Host estimator).

(** A call of a collaborator raises no exception of the modules' own. *)
Lemma lift_not_RuntimeError {A} (r : lib_result A) msg : lift r ≠ Raise (RuntimeError msg).
Proof. by destruct r. Qed.

(** Training succeeds only on a variant class, and leaves the model trained
    with a fitted estimator. *)
Lemma train_Return (self self' : Model estimator) X y :
  train host self X y = (self', Return ()) →
  cls self ≠ BaseModel ∧ cls self' = cls self ∧ is_trained self' = true
  ∧ ∃ est, model self' = Some est.
Proof.
  unfold train.
  destruct (cls self) eqn:Hcls; [by intros [=] | ..];
    (destruct (sk_new host _ _) as [est | ]; [| by intros [=]];
     destruct (sk_fit host est X y) as [est' | ]; [| by intros [=]];
     intros [= <-]; simpl; by eauto).
Qed.

(** It does succeed when scikit-learn builds and fits the estimator. *)
Lemma train_succeeds (self : Model estimator) X y est est' :
  cls self ≠ BaseModel →
  sk_new host (cls self) (model_params self) = Ok est →
  sk_fit host est X y = Ok est' →
  train host self X y
  = ({| cls := cls self; model_params := model_params self; model := Some est';
        is_trained := true |}, Return ()).
Proof.
  intros Hcls Hnew Hfit. unfold train.
  destruct (cls self) eqn:Hc; [done | ..]; by rewrite Hnew, Hfit.
Qed.

Lemma predict_trained (self : Model estimator) X est :
  cls self ≠ BaseModel → is_trained self = true → model self = Some est →
  predict host self X = lift (sk_predict host est X).
Proof.
  intros Hcls Htr Hm. unfold predict, _predict_impl. rewrite Htr, Hm. simpl.
  by destruct (cls self).
Qed.

(** C9. A model of any variant that is not trained, as the factory makes
    it, raises [RuntimeError] on [predict], on [evaluate] and on [save];
    once [train] has returned on it, [predict] and [evaluate] raise no
    [RuntimeError]. *)
Theorem untrained_model_refuses (c : class_) (model_params : option (gmap string value))
    (self : Model estimator) :
  is_trained (init (estimator := estimator) c model_params) = false
  ∧ (is_trained self = false →
     (∀ X, predict host self X
           = Raise (RuntimeError "Model must be trained before making predictions"))
     ∧ (∀ X y, evaluate host self X y
               = Raise (RuntimeError "Model must be trained before evaluation"))
     ∧ (∀ filepath, save host self filepath
                    = Raise (RuntimeError "Cannot save untrained model")))
  ∧ (∀ X y self', train host self X y = (self', Return ()) →
       is_trained self' = true
       ∧ ∀ X' y' msg, predict host self' X' ≠ Raise (RuntimeError msg)
                      ∧ evaluate host self' X' y' ≠ Raise (RuntimeError msg)).
Proof.
  split; [done |]. split.
  - intros Hno. unfold predict, evaluate, save. by rewrite Hno.
  - intros X y self' (Hbase & Hcls & Htr & est & Hest)%train_Return.
    split; [done |]. intros X' y' msg.
    assert (cls self' ≠ BaseModel) as Hbase' by congruence.
    pose proof (predict_trained self' X' est Hbase' Htr Hest) as Hpred.
    split.
    + rewrite Hpred. apply lift_not_RuntimeError.
    + unfold evaluate. rewrite Htr, Hpred. simpl.
      destruct (sk_predict host est X') as [y_pred |]; [simpl | done].
      destruct (sk_score host Accuracy y' y_pred); [simpl | done].
      destruct (sk_score host Precision y' y_pred); [simpl | done].
      destruct (sk_score host Recall y' y_pred); [simpl | done].
      by destruct (sk_score host F1 y' y_pred).
Qed.

Lemma is_variant_not_base c : is_variant c → c ≠ BaseModel.
Proof.
  unfold is_variant, model_classes. simpl. rewrite !elem_of_cons.
  intros [-> | [-> | [-> | [-> | ?%elem_of_nil]]]]; done.
Qed.

(** C10. When the file unpickles to an object, [load] on a variant class
    raises [TypeError] exactly when the object is not a model of that
    variant, and returns the object when it is. *)
Theorem load_checks_variant (c : class_) (filepath : string) (o : pyobj estimator) :
  is_variant c →
  pickle_load host filepath = Ok o →
  (load host c filepath
   = Raise (TypeError ("Loaded model is not an instance of " +:+ class_name c))
   ↔ variant_of o ≠ Some c)
  ∧ ((∃ msg, load host c filepath = Raise (TypeError msg)) ↔ variant_of o ≠ Some c)
  ∧ (variant_of o = Some c → load host c filepath = Return o).
Proof.
  intros Hc%is_variant_not_base Hload. unfold load. rewrite Hload. simpl.
  assert (isinstance o c = true ↔ variant_of o = Some c) as Hinst.
  { destruct o as [m | name]; simpl; [| done]. unfold issubclass.
    rewrite (bool_decide_false (c = BaseModel)) by done.
    rewrite orb_false_r, bool_decide_eq_true. split; congruence. }
  destruct (isinstance o c); simpl.
  - assert (variant_of o = Some c) as Hv by by apply Hinst.
    split; [| split; [| done]].
    + split; [done | by intros []].
    + split; [by intros [? [=]] | by intros []].
  - assert (variant_of o ≠ Some c) as Hv.
    { intros Hv. by apply Hinst in Hv. }
    split; [done |]. split; [| done]. split; [done | by eexists].
Qed.

End ModelFacts.

Lemma untrained_model_refuses_witness :
  predict sample_host (init BaselineModel None) teams
  = Raise (RuntimeError "Model must be trained before making predictions")
  ∧ ∃ trained,
      train sample_host (init BaselineModel None) teams (mkSeries "outcome" [])
      = (trained, Return ())
      ∧ predict sample_host trained teams = Return [VInt 1; VInt 1]
      ∧ ∀ msg, predict sample_host trained teams ≠ Raise (RuntimeError msg).
Proof.
  pose proof (untrained_model_refuses sample_host BaselineModel None
                (init BaselineModel None)) as (_ & Hguard & Htrained).
  split; [by apply Hguard |].
  exists {| cls := BaselineModel; model_params := ∅; model := Some 2%nat;
            is_trained := true |}.
  split; [reflexivity |]. split; [reflexivity |].
  intros msg.
  destruct (Htrained teams (mkSeries "outcome" []) _ eq_refl) as [_ Hafter].
  apply (Hafter teams (mkSeries "outcome" []) msg).
Defined.

Lemma load_checks_variant_witness :
  (load sample_host RandomForestModel "models/forest.pkl" = Return (Instance fitted_forest))
  ∧ (∃ msg, load sample_host SVMModel "models/forest.pkl" = Raise (TypeError msg)).
Proof.
  split.
  - apply (load_checks_variant sample_host RandomForestModel "models/forest.pkl"
             (Instance fitted_forest)); [| done ..].
    unfold is_variant. simpl. by right; left.
  - apply (load_checks_variant sample_host SVMModel "models/forest.pkl"
             (Instance fitted_forest)); [| done ..].
    unfold is_variant. simpl. do 3 right. by left.
Defined.

(** [BaseModel.load] takes a model of any variant. *)
Example load_on_base_class :
  load sample_host BaseModel "models/forest.pkl" = Return (Instance fitted_forest).
Proof. reflexivity. Qed.

(** * Further properties *)

(** ** weight_by_recency: columns, cells, recency *)

Lemma loop_tables recent bw ew (d : dict DataFrame) acc :
  fold_left (weigh_year recent bw ew) d acc = acc ++ stamped_tables recent bw ew d.
Proof.
  revert acc. induction d as [|[year df] d IH]; intros acc.
  - simpl. by rewrite app_nil_r.
  - cbn [fold_left]. rewrite IH, weigh_year_eq. unfold stamped_tables.
    rewrite bind_cons. cbn [fst snd].
    destruct (empty df); [done | by rewrite <- app_assoc].
Qed.

Lemma weight_by_recency_concat d e bw ew out :
  weight_by_recency d e bw ew = Return out →
  out = concat (stamped_tables (recent_years (sorted (keys d)) e) bw ew d).
Proof.
  unfold weight_by_recency, items. destruct (negb (truthy d)); [done |].
  rewrite loop_tables. simpl.
  destruct (stamped_tables _ _ _ d); [done | by intros [= <-]].
Qed.

Lemma elem_of_union_labels c acc ls :
  c ∈ union_labels acc ls ↔ c ∈ acc ∨ c ∈ ls.
Proof.
  unfold union_labels. revert acc. induction ls as [|l ls IH]; intros acc; simpl.
  - rewrite elem_of_nil. tauto.
  - rewrite IH, elem_of_cons. case_bool_decide as Hl.
    + split; [tauto |]. intros [? | [-> | ?]]; tauto.
    + rewrite elem_of_app, list_elem_of_singleton. tauto.
Qed.

Lemma elem_of_fold_union c (dfs : list DataFrame) acc :
  c ∈ fold_left (λ a df, union_labels a (columns df)) dfs acc
  ↔ c ∈ acc ∨ ∃ df, df ∈ dfs ∧ c ∈ columns df.
Proof.
  revert acc. induction dfs as [|df dfs IH]; intros acc; simpl.
  - split; [by left |]. intros [? | (? & ?%elem_of_nil & _)]; done.
  - rewrite IH, elem_of_union_labels. split.
    + intros [[? | ?] | (df' & ? & ?)]; [by left | right | right].
      * exists df. split; [by left | done].
      * exists df'. split; [by right | done].
    + intros [? | (df' & [-> | ?]%elem_of_cons & ?)]; [tauto | tauto |].
      right. by exists df'.
Qed.

Lemma elem_of_setcol_columns c label v df :
  c ∈ columns (setcol label v df) ↔ c = label ∨ c ∈ columns df.
Proof.
  unfold setcol; simpl. case_bool_decide as Hl.
  - split; [tauto |]. by intros [-> | ?].
  - rewrite elem_of_app, list_elem_of_singleton. tauto.
Qed.

Lemma elem_of_stamped_tables recent bw ew (d : dict DataFrame) t :
  t ∈ stamped_tables recent bw ew d
  ↔ ∃ y df, (y, df) ∈ d ∧ empty df = false ∧ t = stamp_table recent bw ew y df.
Proof.
  unfold stamped_tables. rewrite list_elem_of_bind. split.
  - intros ([y df] & Ht & Hin). simpl in Ht.
    destruct (empty df) eqn:He; [by apply elem_of_nil in Ht |].
    apply list_elem_of_singleton in Ht. by exists y, df.
  - intros (y & df & Hin & He & ->). exists (y, df). simpl. rewrite He.
    split; [by apply list_elem_of_singleton | done].
Qed.

Lemma elem_of_columns_weight_by_recency (d : dict DataFrame) e bw ew out :
  weight_by_recency d e bw ew = Return out →
  ∀ c, c ∈ columns out
       ↔ c = "year" ∨ c = "weight"
         ∨ ∃ y df, (y, df) ∈ d ∧ empty df = false ∧ c ∈ columns df.
Proof.
  intros Hout c. pose proof (weight_by_recency_concat _ _ _ _ _ Hout) as ->.
  assert (∃ t, t ∈ stamped_tables (recent_years (sorted (keys d)) e) bw ew d)
    as [t0 Ht0].
  { unfold weight_by_recency, items in Hout. destruct (negb (truthy d)); [done |].
    rewrite loop_tables in Hout. simpl in Hout.
    destruct (stamped_tables _ _ _ d) as [|t ts]; [done |]. exists t. by left. }
  unfold concat; cbn [columns]. rewrite elem_of_fold_union, elem_of_nil. split.
  - intros [[] | (t & (y & df & Hin & He & ->)%elem_of_stamped_tables & Hc)].
    unfold stamp_table in Hc.
    apply elem_of_setcol_columns in Hc as [-> | Hc]; [tauto |].
    apply elem_of_setcol_columns in Hc as [-> | Hc]; [tauto |].
    right; right. by exists y, df.
  - intros Hc. right.
    destruct Hc as [-> | [-> | (y & df & Hin & He & Hc)]].
    + exists t0. split; [done |].
      apply elem_of_stamped_tables in Ht0 as (y & df & _ & _ & ->).
      unfold stamp_table. rewrite !elem_of_setcol_columns. tauto.
    + exists t0. split; [done |].
      apply elem_of_stamped_tables in Ht0 as (y & df & _ & _ & ->).
      unfold stamp_table. rewrite !elem_of_setcol_columns. tauto.
    + exists (stamp_table (recent_years (sorted (keys d)) e) bw ew y df).
      split; [apply elem_of_stamped_tables; by exists y, df |].
      unfold stamp_table. rewrite !elem_of_setcol_columns. tauto.
Qed.

(** The columns of the result: [year], [weight] and the columns of the
    tables that are not empty, nothing else. *)
Theorem weight_by_recency_columns (d : dict DataFrame) e bw ew out :
  weight_by_recency d e bw ew = Return out →
  ∀ c, c ∈ columns out
       ↔ c = "year" ∨ c = "weight"
         ∨ ∃ y df, (y, df) ∈ d ∧ empty df = false ∧ c ∈ columns df.
Proof. apply elem_of_columns_weight_by_recency. Qed.

Lemma weight_by_recency_columns_witness :
  "home" ∈ columns matchups_2021
  ↔ "home" = "year" ∨ "home" = "weight"
    ∨ ∃ y df, (y, df) ∈ [(2021, games_2021)] ∧ empty df = false ∧ "home" ∈ columns df.
Proof.
  apply (weight_by_recency_columns [(2021, games_2021)] 2 1.0 2.0). reflexivity.
Defined.

(** Whatever [emphasis_years], the years emphasised are an end of the
    ascending list. *)
Lemma recent_years_drop (years : list Z) e :
  ∃ j, recent_years years e = drop j years.
Proof.
  unfold recent_years. case_bool_decide.
  - unfold slice_from. by eexists.
  - by exists 0%nat.
Qed.

Lemma sorted_strongly l : StronglySorted Z.le (sorted l).
Proof. apply (StronglySorted_merge_sort Z.le). Qed.

(** A year emphasised is newer than a year of the mapping that is not. *)
Lemma recent_years_newer (years : list Z) e y y' :
  y ∈ recent_years (sorted years) e →
  y' ∈ years →
  y' ∉ recent_years (sorted years) e →
  y' < y.
Proof.
  destruct (recent_years_drop (sorted years) e) as [j ->].
  intros Hy Hy' Hnot. apply elem_of_sorted in Hy'.
  rewrite <- (take_drop j (sorted years)) in Hy'.
  apply elem_of_app in Hy' as [Hy' | Hy']; [| done].
  pose proof (sorted_strongly years) as Hs.
  rewrite <- (take_drop j (sorted years)) in Hs.
  pose proof (StronglySorted_app_1_elem_of _ _ _ y' y Hs Hy' Hy) as Hle.
  assert (y' ≠ y) by (intros ->; done). lia.
Qed.

(** The stamped weight tells the emphasised years when the weights differ. *)
Lemma year_weight_emphasis recent bw ew y :
  bw ≠ ew → (year_weight recent bw ew y = ew ↔ y ∈ recent).
Proof.
  intros Hne. unfold year_weight. case_bool_decide; split; done || congruence.
Qed.

Lemma year_weight_base recent bw ew y :
  bw ≠ ew → (year_weight recent bw ew y = bw ↔ y ∉ recent).
Proof.
  intros Hne. unfold year_weight. case_bool_decide; split; done || congruence.
Qed.

(** Recency, for every [emphasis_years]: when the two weights differ, a row
    that carries the emphasis weight is of a later year than any row that
    carries the base weight. *)
Theorem weight_by_recency_recent_first (d : dict DataFrame) e bw ew out :
  weight_by_recency d e bw ew = Return out →
  bw ≠ ew →
  ∀ r r' y y',
    r ∈ rows out → r' ∈ rows out →
    r !! "year" = Some (VInt y) → r' !! "year" = Some (VInt y') →
    r !! "weight" = Some (VFloat ew) → r' !! "weight" = Some (VFloat bw) →
    y' < y.
Proof.
  intros Hout Hne r r' y y' Hr Hr' Hy Hy' Hw Hw'.
  rewrite (weight_by_recency_Return _ _ _ _ _ Hout) in Hr, Hr'.
  apply elem_of_stamped_rows in Hr as (y0 & _ & Hy0 & Hw0).
  apply elem_of_stamped_rows in Hr' as (y0' & Hk' & Hy0' & Hw0').
  assert (y0 = y) as -> by congruence. assert (y0' = y') as -> by congruence.
  rewrite Hw in Hw0. rewrite Hw' in Hw0'.
  injection Hw0 as Hw0. injection Hw0' as Hw0'.
  symmetry in Hw0, Hw0'.
  apply year_weight_emphasis in Hw0; [| done].
  apply year_weight_base in Hw0'; [| done].
  by apply (recent_years_newer (keys d) e).
Qed.

(** The weights 1.0 and 2.0 differ. *)
Lemma default_weights_differ : default_base_weight ≠ default_emphasis_weight.
Proof.
  intros H. apply (f_equal (λ x, PrimFloat.ltb x 1.5%float)) in H.
  vm_compute in H. discriminate.
Qed.

Lemma weight_by_recency_recent_first_witness : 2020 < 2023.
Proof.
  apply (weight_by_recency_recent_first newest_first 1 1.0 2.0
           (concat (stamped_tables [2023] 1.0 2.0 newest_first)) eq_refl
           default_weights_differ
           (stamp_row 2023 2.0 {["team" := VStr "Kansas"]})
           (stamp_row 2020 1.0 {["team" := VStr "Duke"]})).
  - apply list_elem_of_lookup. exists 0%nat. vm_compute. reflexivity.
  - apply list_elem_of_lookup. exists 1%nat. vm_compute. reflexivity.
  - reflexivity.
  - reflexivity.
  - reflexivity.
  - reflexivity.
Defined.

Lemma recent_years_all (years : list Z) e :
  e = 0 ∨ Z.of_nat (length years) ≤ e → recent_years years e = years.
Proof.
  intros [-> | Hle]; [apply recent_years_zero |].
  unfold recent_years. case_bool_decide as He; [| done].
  assert (e = Z.of_nat (length years)) as -> by lia.
  unfold slice_from. case_bool_decide.
  - by replace (Z.to_nat _) with 0%nat by lia.
  - by replace (Z.to_nat _) with 0%nat by lia.
Qed.

(** With at least as many years to emphasise as the mapping has, and with
    none to emphasise as well (the slice from [-0] is the whole list), every
    row carries the emphasis weight. *)
Theorem weight_by_recency_all_emphasised (d : dict DataFrame) e bw ew out :
  weight_by_recency d e bw ew = Return out →
  e = 0 ∨ Z.of_nat (length (keys d)) ≤ e →
  ∀ r, r ∈ rows out → r !! "weight" = Some (VFloat ew).
Proof.
  intros Hout He r Hr.
  rewrite (weight_by_recency_Return _ _ _ _ _ Hout) in Hr.
  apply elem_of_stamped_rows in Hr as (y & Hy & _ & ->).
  rewrite recent_years_all by (by rewrite sorted_length).
  unfold year_weight. by rewrite bool_decide_true by (by apply elem_of_sorted).
Qed.

Lemma weight_by_recency_all_emphasised_witness :
  (∀ r, r ∈ rows (concat (stamped_tables [2020; 2021] 1.0 2.0 two_years)) →
        r !! "weight" = Some (VFloat 2.0))
  ∧ (∀ r, r ∈ rows (concat (stamped_tables [2023] 1.0 2.0 [(2023, teams)])) →
          r !! "weight" = Some (VFloat 2.0)).
Proof.
  split.
  - apply (weight_by_recency_all_emphasised two_years 0 1.0 2.0); [reflexivity |].
    by left.
  - apply (weight_by_recency_all_emphasised [(2023, teams)] 2 1.0 2.0); [reflexivity |].
    right. simpl. lia.
Defined.

(** The order of the mapping decides the order of the rows and nothing
    else: on a mapping with the same entries in another order,
    [weight_by_recency] raises the same or returns the same rows in another
    order. *)
Theorem weight_by_recency_permutation (d d' : dict DataFrame) e bw ew :
  d ≡ₚ d' →
  match weight_by_recency d e bw ew, weight_by_recency d' e bw ew with
  | Return out, Return out' => rows out ≡ₚ rows out'
  | Raise x, Raise x' => x = x'
  | _, _ => False
  end.
Proof.
  intros Hp.
  assert (sorted (keys d) = sorted (keys d')) as Hs.
  { apply (Sorted_unique Z.le); [apply sorted_ascending .. |].
    rewrite !(proj2 (sorted_ascending _)). unfold keys. by rewrite Hp. }
  assert (forallb empty (values d) = forallb empty (values d')) as Hall.
  { apply eq_true_iff_eq. rewrite !forallb_empty. unfold values. by rewrite Hp. }
  pose proof (weight_by_recency_cases d e bw ew) as Hc.
  pose proof (weight_by_recency_cases d' e bw ew) as Hc'.
  destruct d as [|item d0]; destruct d' as [|item' d0'].
  - by rewrite Hc.
  - by apply Permutation_nil_cons in Hp.
  - symmetry in Hp. by apply Permutation_nil_cons in Hp.
  - rewrite <- Hall in Hc'. destruct (forallb empty (values (item :: d0))).
    + by rewrite Hc, Hc'.
    + destruct Hc as [out Hout], Hc' as [out' Hout']. rewrite Hout, Hout'.
      rewrite (weight_by_recency_Return _ _ _ _ _ Hout).
      rewrite (weight_by_recency_Return _ _ _ _ _ Hout').
      rewrite Hs. by rewrite Hp.
Qed.

Lemma weight_by_recency_permutation_witness :
  match weight_by_recency newest_first 1 1.0 2.0,
        weight_by_recency [(2020, teams); (2023, one_team)] 1 1.0 2.0 with
  | Return out, Return out' => rows out ≡ₚ rows out'
  | Raise x, Raise x' => x = x'
  | _, _ => False
  end.
Proof.
  apply weight_by_recency_permutation. apply perm_swap.
Defined.

(** ** The feature builders: when they return and what they raise *)

Lemma has_data_nonempty (d : dict DataFrame) : has_data d → d ≠ [].
Proof. intros H ->. by apply Exists_nil in H. Qed.

Lemma forallb_empty_false (dfs : list DataFrame) :
  forallb empty dfs = false → Exists (λ df, empty df = false) dfs.
Proof.
  induction dfs as [|df dfs IH]; [done |]. simpl.
  destruct (empty df) eqn:He; [| intros _; by apply Exists_cons_hd].
  intros H. by apply Exists_cons_tl, IH.
Qed.

Lemma weight_by_recency_returns_iff (d : dict DataFrame) e bw ew :
  returns (weight_by_recency d e bw ew) ↔ has_data d.
Proof.
  split; [| apply weight_by_recency_returns].
  intros [out Hout]. pose proof (weight_by_recency_cases d e bw ew) as Hc.
  destruct d as [|item d']; [congruence |].
  destruct (forallb empty (values (item :: d'))) eqn:Hall; [congruence |].
  by apply forallb_empty_false.
Qed.

(** What [weight_by_recency] raises is one of its two [ValueError]s. *)
Lemma weight_by_recency_Raise (d : dict DataFrame) e bw ew x :
  weight_by_recency d e bw ew = Raise x →
  (d = [] ∧ x = ValueError "No data provided")
  ∨ (d ≠ [] ∧ ¬ has_data d ∧ x = ValueError "No valid data frames to combine").
Proof.
  intros Hx. pose proof (weight_by_recency_cases d e bw ew) as Hc.
  destruct d as [|item d']; [left; split; congruence |]. right.
  destruct (forallb empty (values (item :: d'))) eqn:Hall.
  - split; [done |]. split; [| congruence].
    intros [out Hout]%(weight_by_recency_returns _ e bw ew). congruence.
  - destruct Hc as [out Hout]. congruence.
Qed.

Lemma create_team_features_cases (team_stats : dict DataFrame)
    (rankings : option (dict DataFrame)) e :
  (returns (create_team_features team_stats rankings e)
   ↔ has_data team_stats
     ∧ (rankings = None ∨ rankings = Some [] ∨ has_data (default [] rankings)))
  ∧ (∀ x, create_team_features team_stats rankings e = Raise x →
          x = ValueError "No data provided"
          ∨ x = ValueError "No valid data frames to combine").
Proof.
  unfold create_team_features.
  pose proof (weight_by_recency_returns_iff team_stats e default_base_weight
                default_emphasis_weight) as Hts.
  destruct (weight_by_recency team_stats e _ _) as [stats | x] eqn:Hstats.
  - assert (has_data team_stats) as Hdata by (apply Hts; by eexists).
    change (Return stats ≫= ?k) with (k stats). cbv beta.
    destruct rankings as [[|item rk] |]; simpl.
    + split; [| done]. split; [tauto | by eexists].
    + pose proof (weight_by_recency_returns_iff (item :: rk) e default_base_weight
                    default_emphasis_weight) as Hrk.
      destruct (weight_by_recency (item :: rk) e _ _) as [w | x] eqn:Hw; simpl.
      * split; [| done]. split; [| by eexists].
        intros _. split; [done |]. right; right. apply Hrk. by eexists.
      * split.
        -- split; [by intros [? [=]] |]. intros [_ [[=] | [[=] | Hd]]].
           apply Hrk in Hd as [? [=]].
        -- intros x' [= <-]. apply weight_by_recency_Raise in Hw.
           destruct Hw as [[_ ->] | (_ & _ & ->)]; tauto.
    + split; [| done]. split; [tauto | by eexists].
  - simpl. split.
    + split; [by intros [? [=]] |]. intros [Hd _]. apply Hts in Hd as [? [=]].
    + intros x' [= <-]. apply weight_by_recency_Raise in Hstats.
      destruct Hstats as [[_ ->] | (_ & _ & ->)]; tauto.
Qed.

(** [create_team_features] returns exactly when the statistics have a table
    that is not empty and the rankings, if any are given, have one too; what
    it raises is one of the two [ValueError]s of [weight_by_recency]. *)
Theorem create_team_features_returns (team_stats : dict DataFrame)
    (rankings : option (dict DataFrame)) e :
  (returns (create_team_features team_stats rankings e)
   ↔ has_data team_stats
     ∧ (rankings = None ∨ rankings = Some [] ∨ has_data (default [] rankings)))
  ∧ (∀ x, create_team_features team_stats rankings e = Raise x →
          x = ValueError "No data provided"
          ∨ x = ValueError "No valid data frames to combine").
Proof. apply create_team_features_cases. Qed.

Lemma create_team_features_returns_witness :
  returns (create_team_features four_years (Some two_years) 2).
Proof.
  apply (create_team_features_returns four_years (Some two_years) 2).
  split; [by apply Exists_cons_hd |]. right; right. by apply Exists_cons_hd.
Defined.

(** [prepare_tournament_predictions] builds the team features and drops
    them: it hands back the matchups it was given, and it does so exactly
    when the statistics have a table that is not empty and the rankings are
    no mapping of empty tables only. *)
Theorem prepare_tournament_predictions_passes (team_stats rankings : dict DataFrame)
    (tournament_matchups : DataFrame) e :
  (∀ r, prepare_tournament_predictions team_stats rankings tournament_matchups e
        = Return r → r = tournament_matchups)
  ∧ (returns (prepare_tournament_predictions team_stats rankings tournament_matchups e)
     ↔ has_data team_stats ∧ (rankings = [] ∨ has_data rankings))
  ∧ (team_stats = [] →
     prepare_tournament_predictions team_stats rankings tournament_matchups e
     = Raise (ValueError "No data provided")).
Proof.
  unfold prepare_tournament_predictions.
  pose proof (create_team_features_cases team_stats (Some rankings) e) as [Hret _].
  split; [| split].
  - intros r (? & _ & [= <-])%bind_Return. done.
  - split.
    + intros [r (f & Hf & _)%bind_Return].
      destruct (proj1 Hret) as [Hts Hrk]; [by eexists |]. split; [done |].
      destruct Hrk as [[=] | [[= ->] | Hrk]]; [by left | by right].
    + intros [Hts Hrk]. destruct (proj2 Hret) as [f Hf].
      { split; [done |]. destruct Hrk as [-> | Hrk]; [right; by left | right; by right]. }
      rewrite Hf. by eexists.
  - by intros ->.
Qed.

Lemma prepare_tournament_predictions_passes_witness :
  returns (prepare_tournament_predictions four_years [] games_2021 2).
Proof.
  apply (prepare_tournament_predictions_passes four_years [] games_2021 2).
  split; [by apply Exists_cons_hd | by left].
Defined.

(** ** prepare_training_data *)

Lemma elem_of_comprehension {V} (p : Z → bool) (d : dict V) y v :
  (y, v) ∈ comprehension p d ↔ p y = true ∧ (y, v) ∈ d.
Proof. unfold comprehension. by rewrite list_elem_of_filter. Qed.

Lemma elem_of_keys_comprehension {V} (p : Z → bool) (d : dict V) y :
  y ∈ keys (comprehension p d) → p y = true ∧ y ∈ keys d.
Proof.
  unfold keys. intros ([y' v] & -> & Hin)%list_elem_of_fmap.
  apply elem_of_comprehension in Hin as [Hp Hin]. split; [done |].
  apply list_elem_of_fmap. by exists (y', v).
Qed.

(** The parts of a successful [prepare_training_data]. *)
Lemma prepare_training_data_Return ts rk g target X y :
  prepare_training_data ts rk g target = Return (X, y) →
  ∃ m, weight_by_recency (comprehension (year_in target) g) default_emphasis_years
         default_base_weight default_emphasis_weight = Return m
       ∧ "outcome" ∈ columns m
       ∧ X = {| columns := filter (λ c, c ≠ "outcome") (columns m);
                rows := delete "outcome" <$> rows m |}
       ∧ y = {| name := "outcome"; cells := (λ r : Row, r !! "outcome") <$> rows m |}.
Proof.
  unfold prepare_training_data, matchup_table, create_matchup_features.
  intros (m & Hm & Hsplit)%bind_Return.
  apply bind_Return in Hm as (tf & _ & Hm).
  apply bind_Return in Hm as (m' & Hm & [= ->]).
  exists m. split; [done |].
  unfold drop_column, getcol in Hsplit.
  case_bool_decide as Hcol; [| done]. simpl in Hsplit.
  injection Hsplit as <- <-. done.
Qed.

(** The features hold the games of the target years and no others: every
    row of [X] carries a year that was asked for and that the games have;
    [X] has one row for each row of the game tables of those years, and [y]
    one cell for each row of [X]. *)
Theorem prepare_training_data_target_years (ts rk g : dict DataFrame)
    (target : list Z) X y :
  prepare_training_data ts rk g target = Return (X, y) →
  (∀ r, r ∈ rows X →
     ∃ yr, r !! "year" = Some (VInt yr) ∧ yr ∈ target ∧ yr ∈ keys g)
  ∧ length (rows X)
    = sum_list (rows_supplied <$> values (comprehension (year_in target) g))
  ∧ length (cells y) = length (rows X).
Proof.
  intros (m & Hm & Hcol & -> & ->)%prepare_training_data_Return. simpl.
  pose proof (weight_by_recency_Return _ _ _ _ _ Hm) as Hrows.
  split; [| split].
  - intros r (r0 & -> & Hr0)%list_elem_of_fmap. rewrite Hrows in Hr0.
    apply elem_of_stamped_rows in Hr0 as (yr & Hyr & Hy & _).
    apply elem_of_keys_comprehension in Hyr as [Hp Hin].
    exists yr. split; [by rewrite lookup_delete_ne |].
    split; [| done]. unfold year_in in Hp. by apply bool_decide_eq_true in Hp.
  - rewrite length_fmap, Hrows. apply stamped_rows_length.
  - by rewrite !length_fmap.
Qed.

Lemma prepare_training_data_target_years_witness :
  (∀ r, r ∈ rows features_2021 →
     ∃ yr, r !! "year" = Some (VInt yr) ∧ yr ∈ [2021]
           ∧ yr ∈ keys [(2020, teams); (2021, games_2021)])
  ∧ length (rows features_2021)
    = sum_list (rows_supplied <$>
                values (comprehension (year_in [2021]) [(2020, teams); (2021, games_2021)]))
  ∧ length (cells target_2021) = length (rows features_2021).
Proof.
  apply (prepare_training_data_target_years [(2021, teams)] []
           [(2020, teams); (2021, games_2021)] [2021] features_2021 target_2021).
  reflexivity.
Defined.

Lemma has_data_comprehension (p : Z → bool) (d : dict DataFrame) :
  has_data (comprehension p d)
  ↔ ∃ y df, (y, df) ∈ d ∧ p y = true ∧ empty df = false.
Proof.
  unfold has_data, values. rewrite Exists_exists. split.
  - intros (df & ([y df'] & -> & Hin)%list_elem_of_fmap & He).
    apply elem_of_comprehension in Hin as [Hp Hin]. by exists y, df'.
  - intros (y & df & Hin & Hp & He). exists df. split; [| done].
    apply list_elem_of_fmap. exists (y, df). split; [done |].
    by apply elem_of_comprehension.
Qed.

(** When [prepare_training_data] returns: exactly when some target year has
    statistics that are not empty, the rankings of the target years are
    none or not all empty, and some target year has a game table that is
    not empty and has the column [outcome]. *)
Theorem prepare_training_data_returns (ts rk g : dict DataFrame) (target : list Z) :
  returns (prepare_training_data ts rk g target)
  ↔ has_data (comprehension (year_in target) ts)
    ∧ (comprehension (year_in target) rk = []
       ∨ has_data (comprehension (year_in target) rk))
    ∧ ∃ yr df, (yr, df) ∈ g ∧ yr ∈ target ∧ empty df = false
               ∧ "outcome" ∈ columns df.
Proof.
  unfold prepare_training_data, matchup_table, create_matchup_features.
  set (fts := comprehension (year_in target) ts).
  set (frk := comprehension (year_in target) rk).
  set (fg := comprehension (year_in target) g).
  pose proof (create_team_features_cases fts (Some frk) default_emphasis_years)
    as [Htf _].
  assert ((frk = [] ∨ has_data frk)
          ↔ (Some frk = None ∨ Some frk = Some [] ∨ has_data (default [] (Some frk))))
    as Hfrk.
  { simpl. split; [intros [-> | ?]; tauto |].
    intros [[=] | [[= ->] | ?]]; tauto. }
  assert (∀ m, weight_by_recency fg default_emphasis_years default_base_weight
                 default_emphasis_weight = Return m →
               ("outcome" ∈ columns m
                ↔ ∃ yr df, (yr, df) ∈ g ∧ yr ∈ target ∧ empty df = false
                           ∧ "outcome" ∈ columns df)) as Hout.
  { intros m Hm. rewrite (elem_of_columns_weight_by_recency _ _ _ _ _ Hm). split.
    - intros [[=] | [[=] | (yr & df & Hin & He & Hc)]].
      apply elem_of_comprehension in Hin as [Hp Hin].
      exists yr, df. repeat split; try done.
      unfold year_in in Hp. by apply bool_decide_eq_true in Hp.
    - intros (yr & df & Hin & Hp & He & Hc). right; right.
      exists yr, df. split; [| done]. apply elem_of_comprehension.
      split; [| done]. unfold year_in. by apply bool_decide_eq_true. }
  split.
  - intros [[X y] (m & Hm & Hsplit)%bind_Return].
    apply bind_Return in Hm as (tf & Htf' & Hm).
    apply bind_Return in Hm as (m' & Hm & [= ->]).
    destruct (proj1 Htf) as [Hts Hrk]; [by eexists |].
    split; [done |]. split; [by apply Hfrk |].
    apply (Hout m Hm). unfold drop_column in Hsplit.
    by case_bool_decide.
  - intros (Hts & Hrk & Hg).
    destruct (proj2 Htf) as [tf Htf']; [split; [done | by apply Hfrk] |].
    rewrite Htf'. change (Return tf ≫= ?k) with (k tf). cbv beta.
    destruct (weight_by_recency_returns fg default_emphasis_years default_base_weight
                default_emphasis_weight) as [m Hm].
    { apply has_data_comprehension. destruct Hg as (yr & df & ? & ? & ? & _).
      exists yr, df. repeat split; try done. unfold year_in.
      by apply bool_decide_eq_true. }
    rewrite Hm. simpl. unfold drop_column, getcol.
    rewrite !bool_decide_true by (by apply (Hout m Hm)). simpl. by eexists.
Qed.

Lemma prepare_training_data_returns_witness :
  returns (prepare_training_data [(2021, teams)] []
             [(2020, teams); (2021, games_2021)] [2021]).
Proof.
  apply prepare_training_data_returns. split; [| split].
  - by apply Exists_cons_hd.
  - by left.
  - exists 2021, games_2021. split; [by right; left |].
    split; [by left |]. split; [reflexivity | by right; left].
Defined.

(** What [prepare_training_data] raises: one of the two [ValueError]s of
    [weight_by_recency], or the [KeyError] of [df.drop] for the column
    [outcome], whose argument is the message of pandas. *)
Theorem prepare_training_data_raises (ts rk g : dict DataFrame) (target : list Z) x :
  prepare_training_data ts rk g target = Raise x →
  x = ValueError "No data provided"
  ∨ x = ValueError "No valid data frames to combine"
  ∨ x = KeyError "['outcome'] not found in axis".
Proof.
  unfold prepare_training_data, matchup_table, create_matchup_features.
  pose proof (create_team_features_cases (comprehension (year_in target) ts)
                (Some (comprehension (year_in target) rk)) default_emphasis_years)
    as [_ Htf].
  destruct (create_team_features _ _ _) as [tf | x'] eqn:Hctf.
  - change (Return tf ≫= ?k) with (k tf). cbv beta.
    destruct (weight_by_recency (comprehension (year_in target) g) _ _ _)
      as [m | x'] eqn:Hm; simpl.
    + unfold drop_column, getcol. case_bool_decide; simpl; [done |].
      intros [= <-]. tauto.
    + intros [= <-]. apply weight_by_recency_Raise in Hm.
      destruct Hm as [[_ ->] | (_ & _ & ->)]; tauto.
  - simpl. intros [= <-]. destruct (Htf x' eq_refl) as [-> | ->]; tauto.
Qed.

Lemma prepare_training_data_raises_witness :
  KeyError "['outcome'] not found in axis" = ValueError "No data provided"
  ∨ KeyError "['outcome'] not found in axis"
    = ValueError "No valid data frames to combine"
  ∨ KeyError "['outcome'] not found in axis" = KeyError "['outcome'] not found in axis".
Proof.
  apply (prepare_training_data_raises [(2021, teams)] [] [(2021, teams)] [2021]).
  reflexivity.
Defined.

(** ** data_loader: files, order, failures *)

(** Every recognized tag is served by the shared loader body on the file
    named after the tag. *)
Lemma recognized_load_csv data_type :
  recognized data_type →
  ∃ what, str_lookup data_type loaders = Some (load_csv (data_type +:+ ".csv") what).
Proof.
  unfold recognized, loaders. simpl. rewrite !elem_of_cons.
  intros [-> | [-> | [-> | [-> | ?%elem_of_nil]]]]; [| | | | done];
    eexists; reflexivity.
Qed.

(** The retrieval of a recognized tag looks at one file,
    [<data_dir>/<year>/<tag>.csv]: it hands back what [pd.read_csv] makes of
    it when it exists, and signals not-found, naming the year, when it does
    not. *)
Theorem retrieve_year_file fs data_type data_dir (year : Z) :
  recognized data_type →
  (path_exists fs (year_file data_dir year data_type) = true →
   retrieve fs data_type data_dir year
   = read_csv fs (year_file data_dir year data_type))
  ∧ (path_exists fs (year_file data_dir year data_type) = false →
     ∃ what, retrieve fs data_type data_dir year
             = Raise (FileNotFoundError (what +:+ " not found for year " +:+ pretty year))).
Proof.
  intros [what Hl]%recognized_load_csv. unfold retrieve. rewrite Hl.
  unfold load_csv, year_file. split; intros ->; [done | by eexists].
Qed.

Lemma retrieve_year_file_witness :
  (path_exists missing_2020 (year_file "data" 2021 "team_stats") = true →
   retrieve missing_2020 "team_stats" "data" 2021
   = read_csv missing_2020 (year_file "data" 2021 "team_stats"))
  ∧ (path_exists missing_2020 (year_file "data" 2021 "team_stats") = false →
     ∃ what, retrieve missing_2020 "team_stats" "data" 2021
             = Raise (FileNotFoundError (what +:+ " not found for year " +:+ pretty 2021))).
Proof.
  apply retrieve_year_file. by left.
Defined.

Section LoopFacts.

Variable loader : Z → io DataFrame.

(** The events of the loop are those of the loaders and the warnings. *)
Lemma load_years_events years (d : dict DataFrame) ev :
  ev ∈ (load_years loader years d).1 →
  (∃ y, y ∈ years ∧ ev ∈ (loader y).1) ∨ ∃ line, ev = Stdout line.
Proof.
  revert d. induction years as [|year years IH]; intros d; simpl.
  - by intros ?%elem_of_nil.
  - destruct (loader year) as [evs outcome] eqn:Hload.
    assert (ev ∈ evs → ∃ y, y ∈ year :: years ∧ ev ∈ (loader y).1) as Hhere.
    { intros ?. exists year. rewrite Hload. split; [by left | done]. }
    assert (∀ d', ev ∈ (load_years loader years d').1 →
                  (∃ y, y ∈ year :: years ∧ ev ∈ (loader y).1) ∨ ∃ line, ev = Stdout line)
      as Hthere.
    { intros d' [(y & ? & ?) | ?]%IH; [left | by right].
      exists y. split; [by right | done]. }
    destruct outcome as [df | x].
    + destruct (load_years loader years (setitem year df d)) as [evs' r] eqn:Hrest.
      simpl. intros [? | ?]%elem_of_app; [left; auto |].
      apply (Hthere (setitem year df d)). by rewrite Hrest.
    + destruct x; simpl; try (intros ?; left; by auto).
      destruct (load_years loader years d) as [evs' r] eqn:Hrest. simpl.
      intros [? | [-> | ?]%elem_of_cons]%elem_of_app;
        [left; auto | right; by eexists |].
      apply (Hthere d). by rewrite Hrest.
Qed.

Lemma setitem_fresh {V} (k : Z) (v : V) (d : dict V) :
  k ∉ keys d → setitem k v d = d ++ [(k, v)].
Proof.
  unfold keys. induction d as [|[k' v'] d IH]; [done |].
  rewrite fmap_cons, not_elem_of_cons. intros [Hne Hnin]. simpl.
  rewrite bool_decide_false by done. by rewrite IH.
Qed.

(** With distinct years the loop appends the found years in the order of
    the request. *)
Lemma load_years_ordered years (d : dict DataFrame) :
  NoDup years →
  (∀ y, y ∈ years → y ∉ keys d) →
  (∀ y, y ∈ years → returns (loader y).2 ∨ not_found (loader y).2) →
  (load_years loader years d).2
  = Return (d ++ omap (λ y, loaded_entry (loader y).2 y) years).
Proof.
  revert d. induction years as [|year years IH]; intros d Hnd Hfresh Hok.
  - simpl. by rewrite app_nil_r.
  - apply NoDup_cons in Hnd as [Hnin Hnd].
    assert (∀ y, y ∈ years → returns (loader y).2 ∨ not_found (loader y).2) as Hok'.
    { intros y Hy. apply Hok. by right. }
    cbn [load_years omap list_omap].
    destruct (Hok year) as [[df Hdf] | [msg Hmsg]]; [by left | |].
    + destruct (loader year) as [evs outcome]. simpl in Hdf. subst outcome.
      specialize (IH (setitem year df d) Hnd).
      destruct (load_years loader years (setitem year df d)) as [evs' r].
      simpl in *. rewrite IH; [| | done].
      * rewrite setitem_fresh by (apply Hfresh; by left). by rewrite <- app_assoc.
      * intros y Hy Hin. apply elem_of_keys_setitem in Hin as [-> | Hin]; [done |].
        apply (Hfresh y); [by right | done].
    + destruct (loader year) as [evs outcome]. simpl in Hmsg. subst outcome.
      specialize (IH d Hnd).
      destruct (load_years loader years d) as [evs' r].
      simpl in *. apply IH; [| done]. intros y Hy. apply Hfresh. by right.
Qed.

(** The loop ends at the first retrieval that raises another exception
    than [FileNotFoundError]: the years after it are not looked at. *)
Lemma load_years_stops ys1 year ys2 (d : dict DataFrame) x :
  (∀ y, y ∈ ys1 → returns (loader y).2 ∨ not_found (loader y).2) →
  (loader year).2 = Raise x →
  (∀ msg, x ≠ FileNotFoundError msg) →
  load_years loader (ys1 ++ year :: ys2) d
  = ((load_years loader ys1 d).1 ++ (loader year).1, Raise x).
Proof.
  intros Hok Hx Hnot. revert d. induction ys1 as [|y ys1 IH]; intros d.
  - simpl. destruct (loader year) as [evs outcome]. simpl in Hx. subst outcome.
    destruct x; try done. by destruct (Hnot msg).
  - assert (∀ y', y' ∈ ys1 → returns (loader y').2 ∨ not_found (loader y').2) as Hok'.
    { intros y' Hy'. apply Hok. by right. }
    specialize (IH Hok'). rewrite <- app_comm_cons. cbn [load_years].
    destruct (Hok y) as [[df Hdf] | [msg Hmsg]]; [by left | |].
    + destruct (loader y) as [evs outcome]. simpl in Hdf. subst outcome.
      rewrite IH.
      destruct (load_years loader ys1 (setitem y df d)) as [evs' r].
      simpl. by rewrite app_assoc.
    + destruct (loader y) as [evs outcome]. simpl in Hmsg. subst outcome.
      rewrite IH.
      destruct (load_years loader ys1 d) as [evs' r].
      simpl. by rewrite <- app_assoc.
Qed.

End LoopFacts.

Lemma load_csv_events file what fs year data_dir ev :
  ev ∈ (load_csv file what fs year data_dir).1 →
  let p := path_join (path_join data_dir (pretty year)) file in
  ev = Probe p ∨ (ev = Read p ∧ path_exists fs p = true).
Proof.
  unfold load_csv. cbv zeta. destruct (path_exists fs _) eqn:He; simpl.
  - intros [-> | [-> | ?%elem_of_nil]%elem_of_cons]%elem_of_cons; tauto.
  - intros [-> | ?%elem_of_nil]%elem_of_cons; tauto.
Qed.

(** What [load_multi_year_data] touches: besides printing, it probes and
    reads only the files [<data_dir>/<year>/<tag>.csv] of the years asked
    for, and it reads a file only when the file exists. *)
Theorem load_multi_year_data_touches fs (years : list Z) data_type data_dir ev :
  ev ∈ (load_multi_year_data fs years data_type data_dir).1 →
  (∃ line, ev = Stdout line)
  ∨ ∃ y, y ∈ years
         ∧ (ev = Probe (year_file data_dir y data_type)
            ∨ (ev = Read (year_file data_dir y data_type)
               ∧ path_exists fs (year_file data_dir y data_type) = true)).
Proof.
  unfold load_multi_year_data.
  destruct (decide (recognized data_type)) as [Hrec | Hrec].
  - destruct (recognized_load_csv _ Hrec) as [what ->].
    intros [(y & Hy & Hev) | ?]%load_years_events; [right | by left].
    exists y. split; [done |]. by apply load_csv_events in Hev.
  - rewrite str_lookup_None by done. by intros ?%elem_of_nil.
Qed.

Lemma load_multi_year_data_touches_witness :
  (∃ line, Read "data/2021/team_stats.csv" = Stdout line)
  ∨ ∃ y, y ∈ [2020; 2021]
         ∧ (Read "data/2021/team_stats.csv" = Probe (year_file "data" y "team_stats")
            ∨ (Read "data/2021/team_stats.csv" = Read (year_file "data" y "team_stats")
               ∧ path_exists missing_2020 (year_file "data" y "team_stats") = true)).
Proof.
  apply (load_multi_year_data_touches missing_2020 [2020; 2021] "team_stats" "data").
  simpl. do 3 right. by left.
Defined.

(** With distinct years, each found or not found, the mapping lists the
    years found with their tables in the order of the request. *)
Theorem load_multi_year_data_ordered fs (years : list Z) data_type data_dir :
  recognized data_type →
  NoDup years →
  (∀ y, y ∈ years → returns (retrieve fs data_type data_dir y)
                    ∨ not_found (retrieve fs data_type data_dir y)) →
  (load_multi_year_data fs years data_type data_dir).2
  = Return (omap (λ y, loaded_entry (retrieve fs data_type data_dir y) y) years).
Proof.
  intros (loader & Hloader & _)%recognized_loader Hnd.
  unfold retrieve, load_multi_year_data. rewrite Hloader. intros Hok.
  rewrite (load_years_ordered (λ year, loader fs year data_dir) years [] Hnd);
    [done | | done].
  intros y _ ?%elem_of_nil. done.
Qed.

Lemma load_multi_year_data_ordered_witness :
  (load_multi_year_data missing_2020 [2021; 2020] "team_stats" "data").2
  = Return (omap (λ y, loaded_entry (retrieve missing_2020 "team_stats" "data" y) y)
              [2021; 2020]).
Proof.
  apply load_multi_year_data_ordered.
  - by left.
  - apply NoDup_cons. split; [by intros ?%list_elem_of_singleton |].
    apply NoDup_singleton.
  - intros y [-> | [-> | ?%elem_of_nil]%elem_of_cons]%elem_of_cons; [| | done].
    + left. by eexists.
    + right. by eexists.
Defined.

(** A file that exists and on which [pd.read_csv] raises another exception
    than [FileNotFoundError] ends the call: that exception is raised, the
    mapping built so far is lost, and the years after that one are not
    looked at. *)
Theorem load_multi_year_data_stops fs (ys1 ys2 : list Z) (year : Z)
    data_type data_dir (x : exn) :
  recognized data_type →
  (∀ y, y ∈ ys1 → returns (retrieve fs data_type data_dir y)
                  ∨ not_found (retrieve fs data_type data_dir y)) →
  path_exists fs (year_file data_dir year data_type) = true →
  read_csv fs (year_file data_dir year data_type) = Raise x →
  (∀ msg, x ≠ FileNotFoundError msg) →
  load_multi_year_data fs (ys1 ++ year :: ys2) data_type data_dir
  = ((load_multi_year_data fs ys1 data_type data_dir).1
       ++ [Probe (year_file data_dir year data_type);
           Read (year_file data_dir year data_type)],
     Raise x).
Proof.
  intros [what Hl]%recognized_load_csv.
  unfold retrieve, load_multi_year_data. rewrite Hl. intros Hok Hex Hread Hother.
  rewrite (load_years_stops _ ys1 year ys2 [] x); [| done | | done].
  - f_equal. f_equal. unfold load_csv, year_file in *. by rewrite Hex.
  - unfold load_csv, year_file in *. by rewrite Hex.
Qed.

Lemma load_multi_year_data_stops_witness :
  load_multi_year_data blank_files ([] ++ 2020 :: [2021]) "rankings" "data"
  = ((load_multi_year_data blank_files [] "rankings" "data").1
       ++ [Probe (year_file "data" 2020 "rankings");
           Read (year_file "data" 2020 "rankings")],
     Raise (LibraryError "pandas.errors.EmptyDataError" "No columns to parse from file")).
Proof.
  apply load_multi_year_data_stops; [| | done ..].
  - by right; left.
  - by intros y ?%elem_of_nil.
Defined.

(** Loading, then weighting: when every year asked for is found or not
    found, the mapping loaded is one [weight_by_recency] returns on exactly
    when some year asked for has a table that is not empty; when it has
    none, for lack of any file, [weight_by_recency] raises
    [ValueError]. *)
Theorem load_then_weight fs (years : list Z) data_type data_dir e bw ew :
  recognized data_type →
  (∀ y, y ∈ years → returns (retrieve fs data_type data_dir y)
                    ∨ not_found (retrieve fs data_type data_dir y)) →
  ∃ d, (load_multi_year_data fs years data_type data_dir).2 = Return d
    ∧ (returns (weight_by_recency d e bw ew)
       ↔ ∃ y df, y ∈ years ∧ retrieve fs data_type data_dir y = Return df
                 ∧ empty df = false)
    ∧ ((∀ y, y ∈ years → not_found (retrieve fs data_type data_dir y)) →
       weight_by_recency d e bw ew = Raise (ValueError "No data provided")).
Proof.
  intros (loader & Hloader & Hsilent)%recognized_loader.
  unfold retrieve, load_multi_year_data. rewrite Hloader. intros Hok.
  destruct (load_years_spec (λ year, loader fs year data_dir)
              (λ year, Hsilent fs year data_dir) years [] Hok)
    as (d & Hd & _ & Hk & Hv & _).
  exists d. split; [done |]. split.
  - rewrite weight_by_recency_returns_iff. unfold has_data, values.
    rewrite Exists_exists. split.
    + intros (df & ([y df'] & -> & Hin)%list_elem_of_fmap & He).
      exists y, df'. destruct (Hv y df' Hin) as [?%elem_of_nil | Hret]; [done |].
      split; [| done].
      assert (y ∈ keys d) as Hy.
      { unfold keys. apply list_elem_of_fmap. by exists (y, df'). }
      apply Hk in Hy as [?%elem_of_nil | [? _]]; done.
    + intros (y & df & Hy & Hret & He).
      assert (y ∈ keys d) as Hyd.
      { apply Hk. right. split; [done | by eexists]. }
      unfold keys in Hyd. apply list_elem_of_fmap in Hyd as ([y' df'] & -> & Hin).
      destruct (Hv y' df' Hin) as [?%elem_of_nil | Hret']; [done |].
      simpl in *. assert (df' = df) as -> by congruence.
      exists df. split; [| done]. apply list_elem_of_fmap. by exists (y', df).
  - intros Hnone. destruct d as [|[y df] d']; [done |]. exfalso.
    assert (y ∈ keys ((y, df) :: d')) as Hy by (by left).
    apply Hk in Hy as [?%elem_of_nil | [Hy [df' Hret]]]; [done |].
    destruct (Hnone y Hy) as [msg' Hmsg]. simpl in *. congruence.
Qed.

Lemma load_then_weight_witness :
  ∃ d, (load_multi_year_data missing_2020 [2020; 2021] "team_stats" "data").2 = Return d
    ∧ (returns (weight_by_recency d 2 1.0 2.0)
       ↔ ∃ y df, y ∈ [2020; 2021]
                 ∧ retrieve missing_2020 "team_stats" "data" y = Return df
                 ∧ empty df = false)
    ∧ ((∀ y, y ∈ [2020; 2021] → not_found (retrieve missing_2020 "team_stats" "data" y)) →
       weight_by_recency d 2 1.0 2.0 = Raise (ValueError "No data provided")).
Proof.
  apply load_then_weight.
  - by left.
  - intros y [-> | [-> | ?%elem_of_nil]%elem_of_cons]%elem_of_cons; [| | done].
    + right. by eexists.
    + left. by eexists.
Defined.

(** ** model_factory: the factory, training, evaluation, persistence *)

Section FactoryFacts.

Context {estimator : Type} (host : Host estimator).

Lemma create_model_cases (model_type : string)
    (model_params : option (gmap string value)) :
  (returns (create_model (estimator := estimator) model_type model_params)
   ↔ model_type ∈ ["baseline"; "random_forest"; "gradient_boosting"; "svm"])
  ∧ ∀ m : Model estimator, create_model model_type model_params = Return m →
      str_lookup model_type model_classes = Some (cls m)
      ∧ cls m ≠ BaseModel
      ∧ model_factory.model_params m = default ∅ model_params
      ∧ model m = None
      ∧ is_trained m = false.
Proof.
  unfold create_model. split.
  - split.
    + intros [m Hm]. destruct (decide (model_type ∈ model_classes.*1)) as [? | Hnot];
        [done |]. by rewrite str_lookup_None in Hm.
    + simpl. rewrite !elem_of_cons.
      intros [-> | [-> | [-> | [-> | ?%elem_of_nil]]]]; [| | | | done]; by eexists.
  - intros m. destruct (str_lookup model_type model_classes) as [c |] eqn:Hc; [| done].
    intros [= <-]. simpl. split; [done |]. split; [| done].
    unfold str_lookup, model_classes in Hc. simpl in Hc.
    repeat (case_bool_decide; [by injection Hc as <- |]). done.
Qed.

(** The factory knows its four tags and makes, for each, an untrained model
    of the class of the tag, never of the base class, with the parameters
    given or none. *)
Theorem create_model_makes (model_type : string)
    (model_params : option (gmap string value)) :
  (returns (create_model (estimator := estimator) model_type model_params)
   ↔ model_type ∈ ["baseline"; "random_forest"; "gradient_boosting"; "svm"])
  ∧ ∀ m : Model estimator, create_model model_type model_params = Return m →
      str_lookup model_type model_classes = Some (cls m)
      ∧ cls m ≠ BaseModel
      ∧ model_factory.model_params m = default ∅ model_params
      ∧ model m = None
      ∧ is_trained m = false.
Proof. apply create_model_cases. Qed.

(** Whatever the outcome, [train] keeps the class and the parameters; it
    marks the model trained when it returns and leaves the mark as it was
    when it raises, which it does with [NotImplementedError] on the base
    class and with an exception of scikit-learn otherwise. *)
Theorem train_outcome (self self' : Model estimator) X y (r : result ()) :
  train host self X y = (self', r) →
  cls self' = cls self
  ∧ model_params self' = model_params self
  ∧ match r with
    | Return _ => is_trained self' = true ∧ cls self ≠ BaseModel
    | Raise x =>
        is_trained self' = is_trained self
        ∧ (x = NotImplementedError "Subclasses must implement train method"
           ∨ ∃ origin msg, x = LibraryError origin msg)
    end.
Proof.
  unfold train.
  destruct (cls self) eqn:Hcls.
  { intros [= <- <-]. repeat split; [done | by left]. }
  all: destruct (sk_new host _ _) as [est | o m];
    [| intros [= <- <-]; repeat split; [done | right; by eauto]].
  all: destruct (sk_fit host est X y) as [est' | o m]; intros [= <- <-]; simpl.
  all: repeat split; try done; right; by eauto.
Qed.

(** Training a trained model again, with a fit that fails: the model stays
    marked trained and wraps the estimator just built, the one whose fit
    failed, so that [predict] asks that estimator. *)
Theorem retrain_failure_keeps_mark (self : Model estimator) X y est origin msg :
  is_trained self = true →
  cls self ≠ BaseModel →
  sk_new host (cls self) (model_params self) = Ok est →
  sk_fit host est X y = Fails origin msg →
  ∃ self', train host self X y = (self', Raise (LibraryError origin msg))
    ∧ is_trained self' = true
    ∧ model self' = Some est
    ∧ ∀ X', predict host self' X' = lift (sk_predict host est X').
Proof.
  intros Htr Hcls Hnew Hfit. unfold train.
  destruct (cls self) eqn:Hc; [done | ..];
    (rewrite Hnew, Hfit; eexists; split; [reflexivity |]; simpl;
     split; [done |]; split; [done |];
     intros X'; unfold predict, _predict_impl; simpl; by rewrite Htr).
Qed.

(** The factory, then [train], then [predict]: when scikit-learn builds and
    fits the estimator of the tag, the predictions are those of the fitted
    estimator. *)
Theorem create_train_predict (model_type : string)
    (model_params : option (gmap string value)) (m : Model estimator)
    X y est est' :
  create_model model_type model_params = Return m →
  sk_new host (cls m) (default ∅ model_params) = Ok est →
  sk_fit host est X y = Ok est' →
  ∃ m', train host m X y = (m', Return ())
    ∧ ∀ X', predict host m' X' = lift (sk_predict host est' X').
Proof.
  intros Hm Hnew Hfit.
  destruct (create_model_cases model_type model_params) as [_ Hmade].
  destruct (Hmade m Hm) as (_ & Hbase & Hparams & _ & _).
  rewrite <- Hparams in Hnew.
  rewrite (train_succeeds host m X y est est' Hbase Hnew Hfit).
  eexists. split; [reflexivity |]. intros X'.
  by apply predict_trained.
Qed.

(** [save] returns exactly when the model is trained, the directory of the
    path can be made and pickle writes the file. *)
Theorem save_returns (self : Model estimator) (filepath : string) :
  save host self filepath = Return ()
  ↔ is_trained self = true
    ∧ os_makedirs host (os_dirname host filepath) = Ok ()
    ∧ pickle_dump host self filepath = Ok ().
Proof.
  unfold save. destruct (is_trained self); simpl; [| split; [done | by intros [? _]]].
  destruct (os_makedirs host _) as [[] | o m]; simpl.
  - destruct (pickle_dump host self filepath) as [[] | o m]; simpl.
    + done.
    + split; [done | by intros (_ & _ & ?)].
  - split; [done | by intros (_ & ? & _)].
Qed.


End FactoryFacts.

Lemma create_model_makes_witness :
  returns (create_model (estimator := nat) "svm" None).
Proof.
  apply (create_model_makes (estimator := nat) "svm" None).
  do 3 right. by left.
Defined.

Lemma train_outcome_witness :
  cls unfitted_svm = cls (init (estimator := nat) SVMModel None)
  ∧ model_params unfitted_svm = model_params (init (estimator := nat) SVMModel None)
  ∧ (is_trained unfitted_svm = is_trained (init (estimator := nat) SVMModel None)
     ∧ (LibraryError "ValueError" "Input contains NaN"
        = NotImplementedError "Subclasses must implement train method"
        ∨ ∃ origin msg, LibraryError "ValueError" "Input contains NaN"
                        = LibraryError origin msg)).
Proof.
  exact (train_outcome failing_fit_host (init SVMModel None) unfitted_svm
           teams (mkSeries "outcome" [])
           (Raise (LibraryError "ValueError" "Input contains NaN")) eq_refl).
Defined.

Lemma retrain_failure_keeps_mark_witness :
  ∃ self', train failing_fit_host fitted_forest teams (mkSeries "outcome" [])
           = (self', Raise (LibraryError "ValueError" "Input contains NaN"))
    ∧ is_trained self' = true
    ∧ model self' = Some 0%nat
    ∧ ∀ X', predict failing_fit_host self' X'
            = lift (sk_predict failing_fit_host 0%nat X').
Proof.
  apply retrain_failure_keeps_mark; done.
Defined.

Lemma create_train_predict_witness :
  ∃ m', train sample_host (init BaselineModel None) teams (mkSeries "outcome" [])
        = (m', Return ())
    ∧ ∀ X', predict sample_host m' X' = lift (sk_predict sample_host 2%nat X').
Proof.
  apply (create_train_predict sample_host "baseline" None (init BaselineModel None)
           teams (mkSeries "outcome" []) 0%nat 2%nat); reflexivity.
Defined.

Lemma save_returns_witness :
  save sample_host fitted_forest "models/forest.pkl" = Return ().
Proof.
  by apply (save_returns sample_host fitted_forest "models/forest.pkl").
Defined.

